(** * Transcript pipeline: a shallow embedding of [extract_information.py]

    The development follows the Python module function by function:
    the regular expressions and string helpers the parser relies on, the
    section tracker, the line parser, the result classifier, the
    deduplicator, the aggregator, the goal projection and the orchestrator.

    Modelling conventions.
    - A Python [str] is a [string]; a character is one of the 256 Latin-1
      code points, classified the way Python classifies that code point
      ([str.isspace], [\d], [\w]).
    - A Python [float] is an IEEE 754 binary64 value, [spec_float] at
      precision 53 and maximal exponent 1024: every operation rounds to
      nearest, ties to even, and zeros, infinities and NaN are values.  A
      decimal literal such as [4.3] denotes the double nearest to 43/10.
      The [int] 0 that [sum] returns on an empty sequence is represented by
      the double +0.0, with which it agrees in the comparisons, the
      arithmetic and the rounding the program applies to it; only its
      spelling in the report and on the console differs ([0] for [0.0]).
    - A Python [dict] whose iteration order is observable is an association
      list in insertion order.
    - Exceptions are values of [res]: [Ok v] or [Raise e]. *)

From Stdlib Require Import QArith ZArith NArith String Ascii List
  Bool Arith Lia Lqa Permutation SpecFloat.
Import ListNotations.
Open Scope string_scope.
Open Scope list_scope.

Set Implicit Arguments.

(** ** Exceptions *)

Inductive exn : Type :=
| ZeroDivisionError
| ValueError
| EOFError
| OSError.

Inductive res (A : Type) : Type :=
| Ok (a : A)
| Raise (e : exn).

Arguments Ok {A} a.
Arguments Raise {A} e.

Definition res_bind {A B} (m : res A) (k : A -> res B) : res B :=
  match m with
  | Ok a => k a
  | Raise e => Raise e
  end.

Notation "x <- m ;; k" := (res_bind m (fun x => k))
  (at level 61, m at next level, right associativity).

(** ** Characters and Python string primitives *)

Module Py.

Definition code (c : ascii) : nat := nat_of_ascii c.

Definition between (lo hi : nat) (c : ascii) : bool :=
  Nat.leb lo (code c) && Nat.leb (code c) hi.

(** [str.isspace] on Latin-1; also the class [\s] of [re]. *)
Definition is_space (c : ascii) : bool :=
  between 9 13 c || between 28 32 c || Nat.eqb (code c) 133 || Nat.eqb (code c) 160.

(** [\d] on Latin-1. *)
Definition is_digit (c : ascii) : bool := between 48 57 c.

(** [[A-Za-z]]. *)
Definition is_alpha (c : ascii) : bool := between 65 90 c || between 97 122 c.

(** [[A-Za-z0-9]]. *)
Definition is_alnum (c : ascii) : bool := is_alpha c || is_digit c.

(** [\w] on Latin-1: alphanumeric code points and the underscore. *)
Definition is_word (c : ascii) : bool :=
  is_alnum c || Nat.eqb (code c) 95
  || Nat.eqb (code c) 170 || Nat.eqb (code c) 181 || Nat.eqb (code c) 186
  || between 178 179 c || Nat.eqb (code c) 185 || between 188 190 c
  || between 192 214 c || between 216 246 c || between 248 255 c.

Definition is_empty (s : string) : bool :=
  match s with
  | EmptyString => true
  | String _ _ => false
  end.

Fixpoint lstrip (s : string) : string :=
  match s with
  | EmptyString => EmptyString
  | String c s' => if is_space c then lstrip s' else s
  end.

Fixpoint rstrip (s : string) : string :=
  match s with
  | EmptyString => EmptyString
  | String c s' =>
      let r := rstrip s' in
      if is_empty r && is_space c then EmptyString else String c r
  end.

(** [s.strip()] *)
Definition strip (s : string) : string := rstrip (lstrip s).

(** [s.split()]: the maximal runs of non-whitespace characters.
    [cur] is the token being read. *)
Fixpoint split_ws_from (cur : string) (s : string) : list string :=
  match s with
  | EmptyString => if is_empty cur then [] else [cur]
  | String c s' =>
      if is_space c
      then (if is_empty cur then split_ws_from "" s'
            else cur :: split_ws_from "" s')
      else split_ws_from (cur ++ String c "") s'
  end.

Definition split_ws (s : string) : list string := split_ws_from "" s.

(** [s.split(sep)] for a one-character separator: empty fields are kept. *)
Fixpoint split_char_from (sep : ascii) (cur : string) (s : string) : list string :=
  match s with
  | EmptyString => [cur]
  | String c s' =>
      if Ascii.eqb c sep then cur :: split_char_from sep "" s'
      else split_char_from sep (cur ++ String c "") s'
  end.

Definition split_char (sep : ascii) (s : string) : list string :=
  split_char_from sep "" s.

(** [sep.join(l)] *)
Definition join (sep : string) (l : list string) : string := String.concat sep l.

(** [p] is a prefix of [s]. *)
Fixpoint startswith (p s : string) : bool :=
  match p, s with
  | EmptyString, _ => true
  | String a p', String b s' => Ascii.eqb a b && startswith p' s'
  | String _ _, EmptyString => false
  end.

(** [sub in s] *)
Fixpoint contains (sub s : string) : bool :=
  startswith sub s ||
  match s with
  | EmptyString => false
  | String _ s' => contains sub s'
  end.

(** [s.split(sep)[0]] for a non-empty [sep]: the text before the first
    occurrence of [sep], or all of [s] when there is none. *)
Fixpoint before_sep (sep s : string) : string :=
  if startswith sep s then EmptyString
  else match s with
       | EmptyString => EmptyString
       | String c s' => String c (before_sep sep s')
       end.

(** [s[n:]] *)
Fixpoint drop (n : nat) (s : string) : string :=
  match n, s with
  | O, _ => s
  | S n', String _ s' => drop n' s'
  | S _, EmptyString => EmptyString
  end.

(** [x in l] for a list or set of strings. *)
Definition mem (x : string) (l : list string) : bool :=
  existsb (String.eqb x) l.

(** [d.get(k)] *)
Fixpoint lookup {V} (k : string) (d : list (string * V)) : option V :=
  match d with
  | [] => None
  | (k', v) :: d' => if String.eqb k k' then Some v else lookup k d'
  end.

End Py.

(** ** Regular expressions as backtracking matchers

    A matcher maps the text still to be read to the list of remainders it can
    leave, in the order in which a backtracking engine tries them (greedy
    repetitions leave the shortest remainder first). *)

Module Re.

Definition matcher := string -> list string.

(** [c{lo,hi}] for a character class [p], greedy. *)
Fixpoint rep (p : ascii -> bool) (lo hi : nat) (s : string) : list string :=
  match hi with
  | O => if Nat.eqb lo 0 then [s] else []
  | S hi' =>
      (match s with
       | String c s' => if p c then rep p (Nat.pred lo) hi' s' else []
       | EmptyString => []
       end) ++ (if Nat.eqb lo 0 then [s] else [])
  end.

(** [c+] *)
Definition plus (p : ascii -> bool) : matcher :=
  fun s => rep p 1 (String.length s) s.

(** a literal *)
Definition lit (w : string) : matcher :=
  fun s => if Py.startswith w s then [Py.drop (String.length w) s] else [].

(** sequencing *)
Definition seq (m1 m2 : matcher) : matcher :=
  fun s => flat_map m2 (m1 s).

(** [$] without MULTILINE: the end of the text, or just before a final
    newline. *)
Definition at_end (s : string) : bool :=
  String.eqb s "" || String.eqb s (String (ascii_of_nat 10) "").

(** [re.match] of a pattern closed by [$]. *)
Definition matches (m : matcher) (s : string) : bool := existsb at_end (m s).

(** [\b] right after a word character: the next character, if any, is not
    a word character. *)
Definition boundary_after_word (s : string) : bool :=
  match s with
  | EmptyString => true
  | String c _ => negb (Py.is_word c)
  end.

End Re.

(** [^[A-Za-z]{2,5}[A-Za-z0-9]{0,4}\d{3,5}[A-Za-z0-9]{0,3}$] *)
Definition COURSE_CODE_RE (s : string) : bool :=
  Re.matches
    (Re.seq (Re.rep Py.is_alpha 2 5)
       (Re.seq (Re.rep Py.is_alnum 0 4)
          (Re.seq (Re.rep Py.is_digit 3 5) (Re.rep Py.is_alnum 0 3)))) s.

(** [^\d+\.\d$] *)
Definition CREDIT_RE (s : string) : bool :=
  Re.matches (Re.seq (Re.plus Py.is_digit)
                (Re.seq (Re.lit ".") (Re.rep Py.is_digit 1 1))) s.

(** [^\d{4}/[12]$] *)
Definition SEM_RE (s : string) : bool :=
  Re.matches
    (Re.seq (Re.rep Py.is_digit 4 4)
       (Re.seq (Re.lit "/") (Re.rep (fun c => Py.between 49 50 c) 1 1))) s.

(** The alternatives of the group in the section-header pattern. *)
Definition SECTION_PHRASES : list string :=
  ["Compulsory"; "COMP Elective"; "Free elective"; "WIE"].

(** The alternative [p] matches at the head of [r] and is followed by [\b]. *)
Definition phrase_at (r : string) (p : string) : bool :=
  Py.startswith p r && Re.boundary_after_word (Py.drop (String.length p) r).

Fixpoint first_group (rs : list string) : option string :=
  match rs with
  | [] => None
  | r :: rs' =>
      match find (phrase_at r) SECTION_PHRASES with
      | Some p => Some p
      | None => first_group rs'
      end
  end.

(** [^\d+/\d+\s+(Compulsory|COMP Elective|Free elective|WIE)\b] matched at
    the start of [line], returning [group(1)]: for every remainder left by
    the prefix, in backtracking order, the alternatives are tried left to
    right. *)
Definition SECTION_HEADER_RE (line : string) : option string :=
  first_group
    (Re.seq (Re.plus Py.is_digit)
       (Re.seq (Re.lit "/")
          (Re.seq (Re.plus Py.is_digit) (Re.plus Py.is_space))) line).

(** ** Floats: IEEE 754 binary64 *)

Definition float : Type := spec_float.

Module Fl.

Definition prec : Z := 53.
Definition emax : Z := 1024.

Definition zero : float := S754_zero false.

(** [x + y], [x - y], [x * y], [x / y] for a non-zero [y], [abs(x)],
    [x < y] and [x <= y]. *)
Definition add (x y : float) : float := SFadd prec emax x y.
Definition sub (x y : float) : float := SFsub prec emax x y.
Definition mul (x y : float) : float := SFmul prec emax x y.
Definition div (x y : float) : float := SFdiv prec emax x y.
Definition abs (x : float) : float := SFabs x.
Definition ltb (x y : float) : bool := SFltb x y.
Definition leb (x y : float) : bool := SFleb x y.

Definition is_zero (x : float) : bool :=
  match x with
  | S754_zero _ => true
  | _ => false
  end.

Definition is_nan (x : float) : bool :=
  match x with
  | S754_nan => true
  | _ => false
  end.

(** The double nearest to the quotient of two positive integers, with sign
    [neg]: one rounding of the exact quotient. *)
Definition ratio (neg : bool) (num den : positive) : float :=
  SFdiv prec emax (S754_finite neg num 0) (S754_finite false den 0).

(** The double nearest to [n * 10 ^ k], with sign [neg]: one rounding of the
    exact decimal value, to infinity when it is too large. *)
Definition of_decimal (neg : bool) (n : N) (k : Z) : float :=
  match n with
  | N0 => S754_zero neg
  | Npos p =>
      match k with
      | Z0 => binary_round prec emax neg p 0
      | Zpos q => binary_round prec emax neg (p * Pos.pow 10 q) 0
      | Zneg q => ratio neg p (Pos.pow 10 q)
      end
  end.

End Fl.

(** ** [float] on strings

    [float(s)]: surrounding whitespace is stripped; digit-group underscores
    are accepted between two digits; then come an optional sign and either
    one of the words [inf], [infinity], [nan] in any letter case, or a
    decimal numeral (digits with an optional fractional part, at least one
    digit in all) with an optional exponent.  Everything else raises
    [ValueError].  A numeral too large for a double reads as an infinity. *)

Fixpoint span_digits (s : string) : string * string :=
  match s with
  | EmptyString => (EmptyString, EmptyString)
  | String c s' =>
      if Py.is_digit c
      then let (d, r) := span_digits s' in (String c d, r)
      else (EmptyString, s)
  end.

Fixpoint digits_value (acc : N) (s : string) : N :=
  match s with
  | EmptyString => acc
  | String c s' => digits_value (10 * acc + N.of_nat (Py.code c - 48)) s'
  end.

Definition split_sign (s : string) : bool * string :=
  match s with
  | String "-" r => (true, r)
  | String "+" r => (false, r)
  | _ => (false, s)
  end.

(** ASCII lower case. *)
Definition lower (c : ascii) : ascii :=
  if Py.between 65 90 c then ascii_of_nat (Py.code c + 32) else c.

Fixpoint lower_string (s : string) : string :=
  match s with
  | EmptyString => EmptyString
  | String c s' => String (lower c) (lower_string s')
  end.

(** Every underscore of [s] stands between two digits; [prev] is the
    character before [s]. *)
Fixpoint underscores_ok (prev : ascii) (s : string) : bool :=
  match s with
  | EmptyString => negb (Ascii.eqb prev "_")
  | String c s' =>
      (if Ascii.eqb c "_" then Py.is_digit prev
       else negb (Ascii.eqb prev "_") || Py.is_digit c)
      && underscores_ok c s'
  end.

Fixpoint remove_underscores (s : string) : string :=
  match s with
  | EmptyString => EmptyString
  | String c s' =>
      if Ascii.eqb c "_" then remove_underscores s'
      else String c (remove_underscores s')
  end.

(** The exponent part: nothing, or [e] or [E], an optional sign and at least
    one digit. *)
Definition exponent (s : string) : option Z :=
  match s with
  | EmptyString => Some 0%Z
  | String c r =>
      if Ascii.eqb (lower c) "e"
      then let (neg, r1) := split_sign r in
           let (ds, r2) := span_digits r1 in
           if Py.is_empty r2 && negb (Py.is_empty ds)
           then let v := Z.of_N (digits_value 0 ds) in
                Some (if neg then (- v)%Z else v)
           else None
      else None
  end.

Definition py_float (s : string) : res float :=
  let t := Py.strip s in
  if negb (underscores_ok (ascii_of_nat 0) t) then Raise ValueError
  else
    let (neg, s1) := split_sign (remove_underscores t) in
    let word := lower_string s1 in
    if String.eqb word "inf" || String.eqb word "infinity"
    then Ok (S754_infinity neg)
    else if String.eqb word "nan" then Ok S754_nan
    else
      let (ip, s2) := span_digits s1 in
      let (fp, s3) := match s2 with
                      | String "." r => span_digits r
                      | _ => (EmptyString, s2)
                      end in
      if Py.is_empty ip && Py.is_empty fp then Raise ValueError
      else match exponent s3 with
           | Some e =>
               Ok (Fl.of_decimal neg (digits_value 0 (ip ++ fp))
                     (e - Z.of_nat (String.length fp)))
           | None => Raise ValueError
           end.

(** A float literal of the source text, such as [4.3]. *)
Definition fl (literal : string) : float :=
  match py_float literal with
  | Ok x => x
  | Raise _ => S754_nan
  end.

Arguments fl : simpl never.

(** [x / y] *)
Definition py_truediv (x y : float) : res float :=
  if Fl.is_zero y then Raise ZeroDivisionError else Ok (Fl.div x y).

(** [sum(...)]: the items are added left to right, starting from 0, each
    addition rounded, as the float loop of CPython up to 3.11 does.  From
    3.12 on CPython also carries a compensation term through the loop; it is
    not modelled. *)
Definition py_sum (l : list float) : float := fold_left Fl.add l Fl.zero.

(** [num / den] rounded to the nearest integer, ties to the even one. *)
Definition div_half_even (num : Z) (den : positive) : Z :=
  let q := (num / Zpos den)%Z in
  let r := (num mod Zpos den)%Z in
  match (2 * r ?= Zpos den)%Z with
  | Lt => q
  | Gt => (q + 1)%Z
  | Eq => if Z.even q then q else (q + 1)%Z
  end.

(** [round(x, ndigits)] for [ndigits >= 0]: the exact value [m * 2 ^ e] of a
    finite [x] is rounded to [ndigits] decimals, ties to even, and the double
    nearest to that decimal is returned with the sign of [x]; zeros,
    infinities and NaN are returned as they are. *)
Definition py_round (x : float) (ndigits : nat) : float :=
  match x with
  | S754_finite s m e =>
      let p := Z.to_pos (10 ^ Z.of_nat ndigits) in
      let r := match e with
               | Zneg k => div_half_even (Zpos (m * p)) (Pos.pow 2 k)
               | Z0 => Zpos (m * p)
               | Zpos k => Zpos (m * Pos.pow 2 k * p)
               end in
      match r with
      | Zpos rp => Fl.ratio s rp p
      | _ => S754_zero s
      end
  | _ => x
  end.

(** ** Data model *)

Definition GRADE_TO_POINT : list (string * float) :=
  [("A+", fl "4.3"); ("A", fl "4.0"); ("A-", fl "3.7");
   ("B+", fl "3.3"); ("B", fl "3.0"); ("B-", fl "2.7");
   ("C+", fl "2.3"); ("C", fl "2.0");
   ("D+", fl "1.3"); ("D", fl "1.0");
   ("F", fl "0.0")].

Definition NON_FINAL_RESULTS : list string := ["R"; "#"; "W"].
Definition NO_GRADE_RESULTS : list string := ["RC"].

Record CourseRecord : Type := mkCourseRecord {
  course_code : string;
  course_title : string;
  credits : float;
  result : string;
  year_sem : string;
  duplicate : bool;
  section : string;
  status : string;
  grade_point : option float
}.

(** ** Line normalizer *)

Definition normalize_line (line : string) : string :=
  Py.join " " (Py.split_ws line).

Definition normalize_lines (pages_text : list string) : list string :=
  flat_map
    (fun text =>
       filter (fun l => negb (Py.is_empty l))
         (map normalize_line (Py.split_char (ascii_of_nat 10) text)))
    pages_text.

(** ** Section tracker *)

Definition detect_section (line current : string) : string :=
  if String.eqb (Py.strip line) "Major/DSR" then "Major/DSR"
  else match SECTION_HEADER_RE line with
       | Some g =>
           if Py.contains "Major/DSR" current
           then Py.before_sep " - " current ++ " - " ++ g
           else g
       | None =>
           if Py.mem (Py.strip line) ["GUR"; "LCR"] then Py.strip line
           else if Py.contains "(Service Learning)" line then "Service Learning"
           else if Py.contains "(LIPD)" line then "LIPD"
           else if Py.contains "(LCR-Chinese)" line then "LCR-Chinese"
           else if Py.contains "(LCR-English)" line then "LCR-English"
           else current
       end.

(** ** Result classifier *)

Definition classify_result (result : string) : string * option float :=
  if String.eqb result "" then ("unknown", None)
  else match Py.lookup result GRADE_TO_POINT with
       | Some p => ("included", Some p)
       | None =>
           if Py.mem result NON_FINAL_RESULTS then ("excluded", None)
           else if Py.mem result NO_GRADE_RESULTS then ("excluded", None)
           else ("unknown", None)
       end.

(** ** Line parser *)

(** The loop [for i in range(1, len(tokens))]: [l] is [tokens[i:]]. *)
Fixpoint find_credit_idx (i : nat) (l : list string) : option nat :=
  match l with
  | [] => None
  | t :: l' => if CREDIT_RE t then Some i else find_credit_idx (S i) l'
  end.

(** [rest[-1]] and [rest[:-1]] *)
Definition last_tok (l : list string) : string := last l "".
Definition but_last (l : list string) : list string := removelast l.

Definition nonempty {A} (l : list A) : bool :=
  match l with
  | [] => false
  | _ :: _ => true
  end.

(** The trailing tokens: duplicate flag, then term, then result. *)
Definition strip_duplicate (rest : list string) : bool * list string :=
  if nonempty rest && String.eqb (last_tok rest) "Y"
  then (true, but_last rest) else (false, rest).

Definition strip_term (rest : list string) : string * list string :=
  if nonempty rest && SEM_RE (last_tok rest)
  then (last_tok rest, but_last rest) else ("", rest).

Definition first_or_empty (rest : list string) : string :=
  match rest with
  | [] => ""
  | t :: _ => t
  end.

Definition parse_course_from_line (line section : string)
  : res (option CourseRecord) :=
  let tokens := Py.split_ws line in
  match tokens with
  | [] => Ok None
  | code :: after_code =>
      if negb (COURSE_CODE_RE code) then Ok None
      else match find_credit_idx 1 after_code with
           | None => Ok None
           | Some credit_idx =>
               let title_tokens := firstn (credit_idx - 1) (skipn 1 tokens) in
               let title := Py.strip (Py.join " " title_tokens) in
               credits <- py_float (nth credit_idx tokens "") ;;
               let rest := skipn (credit_idx + 1) tokens in
               let (duplicate, rest1) := strip_duplicate rest in
               let (year_sem, rest2) := strip_term rest1 in
               let result := first_or_empty rest2 in
               let (status, gp) := classify_result result in
               Ok (Some (mkCourseRecord code title credits result year_sem
                           duplicate section status gp))
           end
  end.

(** ** Deduplicator *)

Record DedupLog : Type := mkDedupLog {
  log_course_code : string;
  dropped_section : string;
  kept_section : string;
  reason : string
}.

(** The priority tuple of a record. *)
Definition score (r : CourseRecord) : nat * nat :=
  let s1 := if String.eqb (status r) "included" then 2%nat
            else if String.eqb (status r) "excluded" then 1%nat else 0%nat in
  let s2 := if Py.is_empty (year_sem r) then 0%nat else 1%nat in
  (s1, s2).

(** [a > b] on pairs of integers: lexicographic. *)
Definition tuple_gt (a b : nat * nat) : bool :=
  Nat.ltb (fst b) (fst a) || (Nat.eqb (fst a) (fst b) && Nat.ltb (snd b) (snd a)).

(** [chosen[key] = r]: an existing key keeps its place, a new key goes last. *)
Fixpoint dict_set {V} (k : string) (v : V) (d : list (string * V))
  : list (string * V) :=
  match d with
  | [] => [(k, v)]
  | (k', v') :: d' =>
      if String.eqb k k' then (k', v) :: d' else (k', v') :: dict_set k v d'
  end.

Definition dedup_state : Type := list (string * CourseRecord) * list DedupLog.

(** One iteration of the loop over [records]. *)
Definition dedup_step (st : dedup_state) (r : CourseRecord) : dedup_state :=
  let (chosen, dropped_logs) := st in
  let key := course_code r in
  match Py.lookup key chosen with
  | None => (dict_set key r chosen, dropped_logs)
  | Some c =>
      if tuple_gt (score r) (score c)
      then (dict_set key r chosen,
            dropped_logs ++
              [mkDedupLog (course_code c) (section c) (section r)
                 "dedup_replaced_with_higher_priority_record"])
      else (chosen,
            dropped_logs ++
              [mkDedupLog (course_code r) (section r) (section c)
                 "dedup_dropped_lower_priority_record"])
  end.

Definition dedup_by_course_code (records : list CourseRecord)
  : list CourseRecord * list DedupLog :=
  let (chosen, dropped_logs) := fold_left dedup_step records ([], []) in
  (map snd chosen, dropped_logs).

(** ** Aggregator *)

Record CgpaInfo : Type := mkCgpaInfo {
  current_cgpa : option float;
  total_credits_counted : float;
  grade_points_sum : float
}.

Definition is_included (r : CourseRecord) : bool :=
  String.eqb (status r) "included" &&
  match grade_point r with Some _ => true | None => false end.

(** [r.credits * r.grade_point]; the records it is applied to have passed
    [is_included], so the [None] branch is not reached. *)
Definition weighted_point (r : CourseRecord) : float :=
  match grade_point r with
  | Some g => Fl.mul (credits r) g
  | None => Fl.zero
  end.

Definition included_total_credits (records : list CourseRecord) : float :=
  py_sum (map credits (filter is_included records)).

Definition included_total_gp (records : list CourseRecord) : float :=
  py_sum (map weighted_point (filter is_included records)).

Definition compute_cgpa (records : list CourseRecord) : res CgpaInfo :=
  let total_credits := included_total_credits records in
  let total_gp := included_total_gp records in
  cgpa <- (if Fl.ltb Fl.zero total_credits
           then (q <- py_truediv total_gp total_credits ;; Ok (Some q))
           else Ok None) ;;
  Ok (mkCgpaInfo
        (match cgpa with None => None | Some c => Some (py_round c 3) end)
        (py_round total_credits 1)
        (py_round total_gp 3)).

(** ** Goal projection *)

Record GoalInfo : Type := mkGoalInfo {
  goal_cgpa : float;
  total_required_credits : float;
  remaining_credits : float;
  required_average_gp : option float;
  required_letter_equivalent : option string
}.

Definition bands : list (string * float) :=
  [("A+", fl "4.3"); ("A", fl "4.0"); ("A-", fl "3.7");
   ("B+", fl "3.3"); ("B", fl "3.0"); ("B-", fl "2.7");
   ("C+", fl "2.3"); ("C", fl "2.0")].

(** [min(l, key=key)]: the running minimum is replaced only by an item whose
    key compares [<] with the key of the minimum. *)
Fixpoint min_from {A} (key : A -> float) (best : A) (l : list A) : A :=
  match l with
  | [] => best
  | x :: l' =>
      if Fl.ltb (key x) (key best) then min_from key x l' else min_from key best l'
  end.

Definition py_min {A} (key : A -> float) (l : list A) : res A :=
  match l with
  | [] => Raise ValueError
  | x :: l' => Ok (min_from key x l')
  end.

(** The local [required_avg]. *)
Definition required_avg (current_gp_sum current_credits
                           total_required goal : float) : res (option float) :=
  let remaining := Fl.sub total_required current_credits in
  let needed_total_gp := Fl.mul total_required goal in
  let needed_from_remaining := Fl.sub needed_total_gp current_gp_sum in
  if Fl.ltb Fl.zero remaining
  then (q <- py_truediv needed_from_remaining remaining ;; Ok (Some q))
  else Ok None.

Definition compute_goal_strategy (current_gp_sum current_credits
                                    total_required goal : float) : res GoalInfo :=
  let remaining := Fl.sub total_required current_credits in
  ra <- required_avg current_gp_sum current_credits total_required goal ;;
  letter_equiv <-
    match ra with
    | None => Ok None
    | Some a =>
        closest <- py_min (fun b => Fl.abs (Fl.sub (snd b) a)) bands ;;
        Ok (Some ("~" ++ fst closest)%string)
    end ;;
  Ok (mkGoalInfo goal total_required (py_round remaining 1)
        (match ra with None => None | Some a => Some (py_round a 3) end)
        letter_equiv).

(** ** Orchestrator *)

Record ExcludedLog : Type := mkExcludedLog {
  ex_course_code : string;
  ex_result : string;
  ex_section : string;
  ex_reason : string
}.

Record Report : Type := mkReport {
  university : string;
  grading_scale : string;
  summary : CgpaInfo;
  goal_analysis : GoalInfo;
  courses : list CourseRecord;
  dedup_logs : list DedupLog;
  excluded_logs : list ExcludedLog
}.

(** The body of the loop over [lines]: the state is the current section and
    the records collected so far. *)
Definition loop_step (st : string * list CourseRecord) (line : string)
  : res (string * list CourseRecord) :=
  let (sec, records) := st in
  let sec' := detect_section line sec in
  rec <- parse_course_from_line line sec' ;;
  Ok (sec', match rec with
            | Some r => records ++ [r]
            | None => records
            end).

Fixpoint run_loop (lines : list string) (st : string * list CourseRecord)
  : res (string * list CourseRecord) :=
  match lines with
  | [] => Ok st
  | line :: lines' => st' <- loop_step st line ;; run_loop lines' st'
  end.

(** The value of [section] after the lines have been read. *)
Definition section_after (lines : list string) (start : string) : string :=
  fold_left (fun sec line => detect_section line sec) lines start.

Definition exclusion_reason (r : CourseRecord) : string :=
  if Py.mem (result r) NON_FINAL_RESULTS then "result_non_final"
  else if Py.mem (result r) NO_GRADE_RESULTS then "result_no_grade"
  else "missing_or_unknown_result".

Definition exclusion_logs (deduped : list CourseRecord) : list ExcludedLog :=
  map (fun r => mkExcludedLog (course_code r) (result r) (section r)
                  (exclusion_reason r))
    (filter (fun r => negb (String.eqb (status r) "included")) deduped).

(** [sorted(deduped, key=lambda x: (x.section, x.course_code))]: a stable
    sort on the pair of strings, compared by code point. *)
Definition sort_key_lt (a b : CourseRecord) : bool :=
  match String.compare (section a) (section b) with
  | Lt => true
  | Gt => false
  | Eq => String.ltb (course_code a) (course_code b)
  end.

Fixpoint insert_sorted (x : CourseRecord) (l : list CourseRecord)
  : list CourseRecord :=
  match l with
  | [] => [x]
  | y :: l' => if sort_key_lt y x then y :: insert_sorted x l' else x :: l
  end.

Definition sorted_courses (l : list CourseRecord) : list CourseRecord :=
  fold_right insert_sorted [] l.

(** The call of [compute_goal_strategy] in [main]: its first two arguments
    are read back from the summary returned by [compute_cgpa]. *)
Definition goal_from_summary (cgpa_info : CgpaInfo) (goal : float)
  : res GoalInfo :=
  let current_gp_sum := grade_points_sum cgpa_info in
  let current_credits := total_credits_counted cgpa_info in
  compute_goal_strategy current_gp_sum current_credits (fl "109.0") goal.

(** *** Effects: console, document provider, call order *)

(** The core stages, in the order in which [main] calls them. *)
Inductive stage : Type :=
| Normalization
| Parsing
| Deduplication
| Exclusion
| Aggregation.

Inductive pval : Type :=
| PStr (s : string)
| PNum (x : option float)
| POptStr (s : option string).

(** What a run of [main] does, in order: [Prompted] is a call of [input],
    [Opened] the call of [extract_text_pages], [Ran s] the point where the
    function of stage [s] is called, [Projected] the call of
    [compute_goal_strategy] with its four arguments, [Created] the call of
    [open] that creates the report file, [Wrote] the report dumped to it and
    [Printed] a call of [print]. *)
Inductive event : Type :=
| Prompted (prompt answer : string)
| Opened (path : string)
| Ran (s : stage)
| Projected (gp_sum credit_sum total goal : float)
| Created (file : string)
| Wrote (file : string) (r : Report)
| Printed (args : list pval).

(** The environment of a run: what each call of [input] answers (a line, or
    an exception; [EOFError] once the answers are used up), what opening a
    document gives, and with which exception, if any, an output action
    fails. *)
Record world : Type := mkWorld {
  stdin : list (res string);
  documents : string -> res (list string);
  io_error : event -> option exn;
  trace : list event
}.

Definition M (A : Type) : Type := world -> res A * world.

Definition ret {A} (a : A) : M A := fun w => (Ok a, w).

Definition bind {A B} (m : M A) (k : A -> M B) : M B :=
  fun w => match m w with
           | (Ok a, w') => k a w'
           | (Raise e, w') => (Raise e, w')
           end.

Notation "x <~ m ;; k" := (bind m (fun x => k))
  (at level 61, m at next level, right associativity).
Notation "m ;;; k" := (bind m (fun _ => k))
  (at level 61, right associativity).

Definition lift {A} (r : res A) : M A := fun w => (r, w).

(** A step that cannot fail is recorded. *)
Definition emit (e : event) : M unit :=
  fun w => (Ok tt, mkWorld (stdin w) (documents w) (io_error w)
                     (trace w ++ [e])).

(** An output action: it is recorded when it succeeds. *)
Definition perform (e : event) : M unit :=
  fun w => match io_error w e with
           | Some x => (Raise x, w)
           | None => emit e w
           end.

(** [input(prompt)] *)
Definition input (prompt : string) : M string :=
  fun w => match stdin w with
           | [] => (Raise EOFError, w)
           | Raise e :: ls =>
               (Raise e, mkWorld ls (documents w) (io_error w) (trace w))
           | Ok l :: ls =>
               (Ok l, mkWorld ls (documents w) (io_error w)
                        (trace w ++ [Prompted prompt l]))
           end.

(** [extract_text_pages(pdf_path)]: the page texts come from the document
    provider. *)
Definition extract_text_pages (pdf_path : string) : M (list string) :=
  emit (Opened pdf_path) ;;;
  fun w => (documents w pdf_path, w).

(** The two prompts of [main]. *)
Definition PATH_PROMPT : string :=
  "Enter the path to the PDF file (e.g., ./data/sample_transcript.pdf): ".
Definition TARGET_PROMPT : string :=
  "Enter your target CGPA from 0.00 to 4.30: ".

Definition REPORT_FILE : string := "transcript_parsed.json".

Definition main : M unit :=
  answer <~ input PATH_PROMPT ;;
  let pdf_path := Py.strip answer in
  pages <~ extract_text_pages pdf_path ;;
  emit (Ran Normalization) ;;;
  let lines := normalize_lines pages in
  emit (Ran Parsing) ;;;
  st <~ lift (run_loop lines ("UNKNOWN", [])) ;;
  let records := snd st in
  emit (Ran Deduplication) ;;;
  let (deduped, dedup_logs) := dedup_by_course_code records in
  emit (Ran Exclusion) ;;;
  let excluded_logs := exclusion_logs deduped in
  emit (Ran Aggregation) ;;;
  cgpa_info <~ lift (compute_cgpa deduped) ;;
  answer2 <~ input TARGET_PROMPT ;;
  let goal_text := Py.strip answer2 in
  goal_value <~ lift (py_float goal_text) ;;
  emit (Projected (grade_points_sum cgpa_info)
          (total_credits_counted cgpa_info) (fl "109.0") goal_value) ;;;
  goal <~ lift (goal_from_summary cgpa_info goal_value) ;;
  let output := mkReport "PolyU" "4.3" cgpa_info goal
                  (sorted_courses deduped) dedup_logs excluded_logs in
  perform (Created REPORT_FILE) ;;;
  perform (Wrote REPORT_FILE output) ;;;
  perform (Printed [PStr "Saved: transcript_parsed.json"]) ;;;
  perform (Printed [PStr "Current CGPA:"; PNum (current_cgpa cgpa_info);
                    PStr "Credits counted:";
                    PNum (Some (total_credits_counted cgpa_info))]) ;;;
  perform (Printed [PStr "Goal required avg GP:";
                    PNum (required_average_gp goal); PStr "(";
                    POptStr (required_letter_equivalent goal); PStr ")"]).

(** ** Reference definitions used in the statements *)


(** The records [main] hands to [compute_cgpa] when the document has the
    lines [lines]. *)
Definition parsed_records (lines : list string) : list CourseRecord :=
  match run_loop lines ("UNKNOWN", []) with
  | Ok st => fst (dedup_by_course_code (snd st))
  | Raise _ => []
  end.

(** The reading under which the goal projection made after aggregation is
    computed from the unrounded totals. *)
Definition projection_from_unrounded (records : list CourseRecord)
           (goal : float) : Prop :=
  forall info, compute_cgpa records = Ok info ->
    goal_from_summary info goal
    = compute_goal_strategy (included_total_gp records)
        (included_total_credits records) (fl "109.0") goal.

(** The distance [compute_goal_strategy] computes between a band and the
    required average [a]. *)
Definition band_distance (a : float) (b : string * float) : float :=
  Fl.abs (Fl.sub (snd b) a).

(** The reading under which a required average outside [2.0, 4.3] is given
    the label of the nearest endpoint band. *)
Definition outside_range_gives_endpoint : Prop :=
  forall gp_sum cr total goal a info,
    required_avg gp_sum cr total goal = Ok (Some a) ->
    compute_goal_strategy gp_sum cr total goal = Ok info ->
    (Fl.ltb a (fl "2.0") = true ->
     required_letter_equivalent info = Some "~C")
    /\ (Fl.ltb (fl "4.3") a = true ->
        required_letter_equivalent info = Some "~A+").



(** A target text is valid when it reads as a decimal in [0.00, 4.30]. *)
Definition valid_target (text : string) : Prop :=
  exists g, py_float (Py.strip text) = Ok g
            /\ Fl.leb (fl "0.00") g = true /\ Fl.leb g (fl "4.30") = true.

(** [main] fails before any core stage has run. *)
Definition fails_before_pipeline (w : world) : Prop :=
  (exists e, fst (main w) = Raise e)
  /\ forall s, ~ In (Ran s) (trace (snd (main w))).

(** The trailing tokens read right to left: an optional final "Y", then an
    optional final term, then the first of what is left. *)
Definition trailing_fields (rest : list string)
           (dup : bool) (term res : string) : Prop :=
  exists rest1 rest2,
    ((exists pre, rest = pre ++ ["Y"] /\ dup = true /\ rest1 = pre)
     \/ ((forall pre, rest <> pre ++ ["Y"]) /\ dup = false /\ rest1 = rest))
    /\ ((exists pre t, rest1 = pre ++ [t] /\ SEM_RE t = true
                       /\ term = t /\ rest2 = pre)
        \/ ((forall pre t, rest1 = pre ++ [t] -> SEM_RE t = false)
            /\ term = "" /\ rest2 = rest1))
    /\ res = hd "" rest2.

(** Strict and weak order on priority tuples. *)
Definition score_lt (a b : nat * nat) : Prop := tuple_gt b a = true.
Definition score_le (a b : nat * nat) : Prop := tuple_gt a b = false.

(** [k] is the leftmost record of maximal score among the records of
    [records] that carry its course code. *)
Definition leftmost_best (records : list CourseRecord) (k : CourseRecord)
  : Prop :=
  exists before after,
    records = before ++ k :: after
    /\ (forall r, In r before -> course_code r = course_code k ->
                  score_lt (score r) (score k))
    /\ (forall r, In r after -> course_code r = course_code k ->
                  score_le (score r) (score k)).

(** Sample records for the examples below. *)
Definition graded (code credit letter point : string) : CourseRecord :=
  mkCourseRecord code "" (fl credit) letter "" false "GUR" "included"
    (Some (fl point)).

Definition two_graded : list CourseRecord :=
  [graded "COMP1011" "1.0" "A+" "4.3"; graded "COMP2011" "2.0" "B+" "3.3"].

(** Two lines of a transcript: a 1.0-credit A+ and a 0.3-credit B-. *)
Definition fraction_lines : list string :=
  ["COMP1011 Programming 1.0 A+ 2023/1"; "COMP2011 Seminar 0.3 B- 2023/2"].

Definition no_result_row : CourseRecord :=
  mkCourseRecord "APSS1BN04" "" (fl "3.0") "" "" false "Service Learning"
    "unknown" None.

Definition graded_row : CourseRecord :=
  mkCourseRecord "APSS1BN04" "" (fl "3.0") "B" "2023/2" false "GUR"
    "included" (Some (fl "3.0")).

Definition retake_pair : list CourseRecord := [no_result_row; graded_row].

(** The loop invariant of [dedup_by_course_code]: [processed] is the part of
    the input read so far. *)
Definition dedup_inv (processed : list CourseRecord) (st : dedup_state) : Prop :=
  NoDup (map fst (fst st))
  /\ Forall (fun kv => course_code (snd kv) = fst kv) (fst st)
  /\ (forall r, In r processed -> In (course_code r) (map fst (fst st)))
  /\ (forall kv, In kv (fst st) -> leftmost_best processed (snd kv))
  /\ exists dropped,
       Permutation processed (map snd (fst st) ++ dropped)
       /\ map (fun r => (course_code r, section r)) dropped
          = map (fun e => (log_course_code e, dropped_section e)) (snd st).

(** Every character of [s] is in the class [p]. *)
Fixpoint all_chars (p : ascii -> bool) (s : string) : bool :=
  match s with
  | EmptyString => true
  | String c s' => p c && all_chars p s'
  end.

(** What [main] has done once the target has been typed: both prompts
    answered, the document opened and every core stage run. *)
Definition pipeline_events (path target : string) : list event :=
  [Prompted PATH_PROMPT path; Opened (Py.strip path);
   Ran Normalization; Ran Parsing; Ran Deduplication; Ran Exclusion;
   Ran Aggregation; Prompted TARGET_PROMPT target].

(** The reading under which the target is validated at the boundary: an
    invalid target makes [main] fail before any core stage, and the goal
    projection only ever receives a target in [0.00, 4.30]. *)
Definition target_checked_at_boundary (w : world) : Prop :=
  (forall path target rest,
      stdin w = Ok path :: Ok target :: rest ->
      ~ valid_target target -> fails_before_pipeline w)
  /\ (forall s c t g,
        In (Projected s c t g) (trace (snd (main w))) ->
        Fl.leb (fl "0.00") g = true /\ Fl.leb g (fl "4.30") = true).

(** A one-page sample document and a console session on it in which no
    output action fails. *)
Definition sample_documents (path : string) : res (list string) :=
  if String.eqb path "t.pdf"
  then Ok ["GUR
COMP1234 Intro to Computing 3.0 A- 2023/1
AMA1100 Calculus 3.0 R"]
  else Raise OSError.

Definition session (target : string) : world :=
  mkWorld [Ok "t.pdf"; Ok target] sample_documents (fun _ => None) [].

(** The order of a float that is not NaN: the floats compare as these
    triples compare lexicographically. *)
Definition rank (x : float) : Z * (Z * Z) :=
  match x with
  | S754_infinity true => (-2, (0, 0))%Z
  | S754_finite true m e => (-1, (- e, Zneg m))%Z
  | S754_zero _ | S754_nan => (0, (0, 0))%Z
  | S754_finite false m e => (1, (e, Zpos m))%Z
  | S754_infinity false => (2, (0, 0))%Z
  end.

Definition rank_lt (a b : Z * (Z * Z)) : Prop :=
  (fst a < fst b
   \/ (fst a = fst b
       /\ (fst (snd a) < fst (snd b)
           \/ (fst (snd a) = fst (snd b) /\ snd (snd a) < snd (snd b)))))%Z.

(** The sign of a float that is not NaN. *)
Definition has_sign (s : bool) (x : float) : Prop :=
  match x with
  | S754_zero s' | S754_infinity s' | S754_finite s' _ _ => s' = s
  | S754_nan => False
  end.


(** ** Further reference definitions *)

From Stdlib Require Import Sorted.

(** A character that is not whitespace. *)
Definition not_space (c : ascii) : bool := negb (Py.is_space c).

(** A token: a non-empty string without whitespace. *)
Definition is_token (t : string) : bool :=
  negb (Py.is_empty t) && all_chars not_space t.

(** A character of a plain numeral: a digit or the point. *)
Definition numeral_char (c : ascii) : bool :=
  Py.is_digit c || Ascii.eqb c ".".

(** The distinct elements of [l] in the order of their first occurrence. *)
Fixpoint first_occurrences (l : list string) : list string :=
  match l with
  | [] => []
  | x :: l' => x :: filter (fun y => negb (String.eqb y x)) (first_occurrences l')
  end.

(** The line separator of [text.split]. *)
Definition newline : ascii := ascii_of_nat 10.

(** The order of the report: [a] may come before [b] when the key of [b] is
    not below the key of [a]. *)
Definition may_precede (a b : CourseRecord) : Prop := sort_key_lt b a = false.

(** An event that precedes any output of [main]. *)
Definition before_output (ev : event) : Prop :=
  match ev with
  | Prompted _ _ | Opened _ | Ran _ => True
  | Projected _ _ _ _ | Created _ | Wrote _ _ | Printed _ => False
  end.

(** ** The sample generator ([generate_sample.py])

    The script draws the lines of a text file on pages of a canvas.  The
    canvas calls are recorded as operations; [height] is the page height the
    script reads from the page size. *)

(** [x < y] on exact decimals. *)
Definition Qltb (x y : Q) : bool := negb (Qle_bool y x).

Inductive canvas_op : Type :=
| ShowPage
| DrawString (x y : Q) (text : string)
| Save.

(** The loop [for line in f], from the current value of [y]. *)
Fixpoint draw_lines (height y : Q) (lines : list string) : list canvas_op :=
  match lines with
  | [] => []
  | line :: lines' =>
      if Qltb y 40
      then ShowPage
             :: DrawString 40 (height - 40) (Py.rstrip line)
             :: draw_lines height (height - 40 - 14) lines'
      else DrawString 40 y (Py.rstrip line)
             :: draw_lines height (y - 14) lines'
  end.

Definition generate_sample (height : Q) (lines : list string) : list canvas_op :=
  draw_lines height (height - 40) lines ++ [Save].

(** The texts drawn, in order. *)
Fixpoint drawn_texts (ops : list canvas_op) : list string :=
  match ops with
  | [] => []
  | DrawString _ _ t :: ops' => t :: drawn_texts ops'
  | _ :: ops' => drawn_texts ops'
  end.

(** A log entry of the deduplicator is sound for [records] when it names, by
    course code and section, a dropped and a kept record of [records] with
    the same course code, the dropped one strictly lower in priority when the
    reason is a replacement and not higher when the reason is a drop. *)
Definition log_sound (records : list CourseRecord) (e : DedupLog) : Prop :=
  exists d k,
    In d records /\ In k records
    /\ course_code d = log_course_code e
    /\ course_code k = log_course_code e
    /\ section d = dropped_section e
    /\ section k = kept_section e
    /\ ((reason e = "dedup_replaced_with_higher_priority_record"
         /\ score_lt (score d) (score k))
        \/ (reason e = "dedup_dropped_lower_priority_record"
            /\ score_le (score d) (score k))).

(** * Properties *)

Unset Implicit Arguments.

(** ** Result classifier *)

Lemma lookup_Some_In {V} (k : string) (d : list (string * V)) (v : V) :
  Py.lookup k d = Some v -> In (k, v) d.
Proof.
  induction d as [|[k' v'] d IH]; simpl; [discriminate|].
  destruct (String.eqb_spec k k') as [->|_].
  - intros [= ->]. now left.
  - intros H. right. now apply IH.
Qed.

Lemma lookup_None_keys {V} (k : string) (d : list (string * V)) :
  Py.lookup k d = None <-> ~ In k (map fst d).
Proof.
  induction d as [|[k' v'] d IH]; simpl.
  - tauto.
  - destruct (String.eqb_spec k k') as [->|Hne].
    + split; [discriminate | intros H; exfalso; apply H; now left].
    + rewrite IH. split; [intros H [E|I]; [now subst | tauto] | tauto].
Qed.

Lemma mem_In (x : string) (l : list string) : Py.mem x l = true <-> In x l.
Proof.
  unfold Py.mem. rewrite existsb_exists. split.
  - intros (y & Hy & E). apply String.eqb_eq in E. now subst.
  - intros H. exists x. split; [assumption | apply String.eqb_refl].
Qed.

(** What [classify_result] can return, by its branches. *)
Lemma classify_result_cases (r : string) :
  (exists p, Py.lookup r GRADE_TO_POINT = Some p /\
             classify_result r = ("included", Some p))
  \/ (Py.lookup r GRADE_TO_POINT = None /\
      (classify_result r = ("excluded", None) \/
       classify_result r = ("unknown", None))).
Proof.
  unfold classify_result.
  destruct (String.eqb_spec r "") as [->|_].
  - right. split; [reflexivity | now right].
  - destruct (Py.lookup r GRADE_TO_POINT) as [p|].
    + left. now exists p.
    + right. split; [reflexivity|].
      destruct (Py.mem r NON_FINAL_RESULTS); [now left|].
      destruct (Py.mem r NO_GRADE_RESULTS); [now left | now right].
Qed.

(** C4: [classify_result] is the fixed case table: the empty string is
    unknown, each of the eleven letter grades is included with its point on
    the 4.3 scale, each of R, #, W and RC is excluded, and every other token
    is unknown; the function is total, so no token makes it fail. *)
Theorem classify_result_table :
  classify_result "" = ("unknown", None)
  /\ (classify_result "A+" = ("included", Some (fl "4.3"))
      /\ classify_result "A" = ("included", Some (fl "4.0"))
      /\ classify_result "A-" = ("included", Some (fl "3.7"))
      /\ classify_result "B+" = ("included", Some (fl "3.3"))
      /\ classify_result "B" = ("included", Some (fl "3.0"))
      /\ classify_result "B-" = ("included", Some (fl "2.7"))
      /\ classify_result "C+" = ("included", Some (fl "2.3"))
      /\ classify_result "C" = ("included", Some (fl "2.0"))
      /\ classify_result "D+" = ("included", Some (fl "1.3"))
      /\ classify_result "D" = ("included", Some (fl "1.0"))
      /\ classify_result "F" = ("included", Some (fl "0.0")))
  /\ (classify_result "R" = ("excluded", None)
      /\ classify_result "#" = ("excluded", None)
      /\ classify_result "W" = ("excluded", None)
      /\ classify_result "RC" = ("excluded", None))
  /\ (forall r : string,
        ~ In r [""; "A+"; "A"; "A-"; "B+"; "B"; "B-"; "C+"; "C"; "D+"; "D"; "F";
                "R"; "#"; "W"; "RC"] ->
        classify_result r = ("unknown", None)).
Proof.
  split; [reflexivity|].
  split; [repeat split; reflexivity|].
  split; [repeat split; reflexivity|].
  intros r Hr. unfold classify_result.
  destruct (String.eqb_spec r "") as [->|_]; [reflexivity|].
  assert (Hk : Py.lookup r GRADE_TO_POINT = None).
  { apply lookup_None_keys. simpl. intros H. apply Hr. simpl. tauto. }
  rewrite Hk.
  assert (H1 : Py.mem r NON_FINAL_RESULTS = false).
  { destruct (Py.mem r NON_FINAL_RESULTS) eqn:E; [|reflexivity].
    apply mem_In in E. exfalso. apply Hr. simpl in *. tauto. }
  assert (H2 : Py.mem r NO_GRADE_RESULTS = false).
  { destruct (Py.mem r NO_GRADE_RESULTS) eqn:E; [|reflexivity].
    apply mem_In in E. exfalso. apply Hr. simpl in *. tauto. }
  now rewrite H1, H2.
Qed.

Lemma classify_result_table_witness :
  classify_result "P" = ("unknown", None).
Proof.
  destruct classify_result_table as (_ & _ & _ & H).
  apply H. simpl. intros K.
  repeat (destruct K as [K|K]; [discriminate K|]). exact K.
Defined.

(** ** Line parser: the record carries the classification of its result *)

Lemma parse_classified (line sec : string) (r : CourseRecord) :
  parse_course_from_line line sec = Ok (Some r) ->
  classify_result (result r) = (status r, grade_point r).
Proof.
  unfold parse_course_from_line.
  destruct (Py.split_ws line) as [|code after_code]; [discriminate|].
  destruct (COURSE_CODE_RE code); simpl; [|discriminate].
  destruct (find_credit_idx 1 after_code) as [idx|]; [|discriminate].
  destruct (py_float _) as [q|e]; simpl; [|discriminate].
  destruct (strip_duplicate _) as [dup rest1].
  destruct (strip_term rest1) as [ys rest2].
  destruct (classify_result (first_or_empty rest2)) as [st gp] eqn:E.
  intros [= <-]. simpl. exact E.
Qed.

(** C2: a record returned by [parse_course_from_line] has a grade point
    exactly when its status is "included", and its status is "included"
    exactly when its result is a key of the grade-to-point table. *)
Theorem parse_status_grade_point_coupling (line sec : string) (r : CourseRecord) :
  parse_course_from_line line sec = Ok (Some r) ->
  (grade_point r <> None <-> status r = "included")
  /\ (status r = "included" <-> In (result r) (map fst GRADE_TO_POINT)).
Proof.
  intros H. apply parse_classified in H.
  destruct (classify_result_cases (result r)) as [(p & Hp & Hc)|(Hn & [Hc|Hc])];
    rewrite Hc in H; injection H as <- <-.
  - split; split; intros _; try reflexivity; try discriminate.
    apply lookup_Some_In in Hp. now apply (in_map fst) in Hp.
  - apply lookup_None_keys in Hn.
    split; split; intros K; try discriminate K; try congruence; tauto.
  - apply lookup_None_keys in Hn.
    split; split; intros K; try discriminate K; try congruence; tauto.
Qed.

Lemma parse_status_grade_point_coupling_witness :
  exists r,
    parse_course_from_line "COMP1234 Intro to Computing 3.0 A- 2023/1" "GUR"
      = Ok (Some r)
    /\ (grade_point r <> None <-> status r = "included")
    /\ (status r = "included" <-> In (result r) (map fst GRADE_TO_POINT)).
Proof.
  eexists. split; [vm_compute; reflexivity|].
  apply (@parse_status_grade_point_coupling
           "COMP1234 Intro to Computing 3.0 A- 2023/1" "GUR").
  vm_compute. reflexivity.
Defined.

(** ** Section tracker *)

Lemma first_group_phrase (rs : list string) (p : string) :
  first_group rs = Some p -> In p SECTION_PHRASES.
Proof.
  induction rs as [|r rs IH]; cbn [first_group]; [discriminate|].
  destruct (find (phrase_at r) SECTION_PHRASES) as [q|] eqn:E.
  - intros [= <-]. apply find_some in E. tauto.
  - exact IH.
Qed.

Lemma append_length (a b : string) :
  String.length (a ++ b) = (String.length a + String.length b)%nat.
Proof. induction a as [|c a IH]; simpl; [reflexivity | now rewrite IH]. Qed.

Lemma contains_space_after (pre s : string) :
  Py.contains " " (pre ++ String " " s) = true.
Proof.
  induction pre as [|c pre IH].
  - reflexivity.
  - cbn [append Py.contains]. rewrite IH. apply orb_true_r.
Qed.

Lemma prefixed_phrase_not_unknown (pre p : string) :
  (pre ++ " - " ++ p)%string <> "UNKNOWN".
Proof.
  intros E. apply (f_equal (Py.contains " ")) in E.
  change (" - " ++ p)%string with (String " " ("- " ++ p)) in E.
  rewrite contains_space_after in E. discriminate E.
Qed.

Lemma run_loop_section (lines : list string) (sec : string)
      (recs : list CourseRecord) (st : string * list CourseRecord) :
  run_loop lines (sec, recs) = Ok st -> fst st = section_after lines sec.
Proof.
  revert sec recs. induction lines as [|l lines IH]; intros sec recs; simpl.
  - now intros [= <-].
  - destruct (parse_course_from_line l (detect_section l sec)) as [o|e];
      simpl; [|discriminate].
    apply IH.
Qed.

(** C10: [detect_section] returns the current section unchanged or one of the
    header-derived strings: a literal header name, a matched phrase, or the
    prefix of the current section followed by " - " and the phrase.  None of
    these is "UNKNOWN", so a section different from "UNKNOWN" stays different
    from it after any further lines. *)
Theorem detect_section_never_reverts (line c : string) (lines : list string) :
  (detect_section line c = c
   \/ In (detect_section line c)
        ["Major/DSR"; "GUR"; "LCR"; "Service Learning"; "LIPD";
         "LCR-Chinese"; "LCR-English"]
   \/ exists p, In p SECTION_PHRASES /\
        (detect_section line c = p
         \/ detect_section line c = (Py.before_sep " - " c ++ " - " ++ p)%string))
  /\ (detect_section line c = "UNKNOWN" -> c = "UNKNOWN")
  /\ (c <> "UNKNOWN" ->
      forall n, section_after (firstn n lines) c <> "UNKNOWN").
Proof.
  assert (Hrange : forall l s,
    detect_section l s = s
    \/ In (detect_section l s)
         ["Major/DSR"; "GUR"; "LCR"; "Service Learning"; "LIPD";
          "LCR-Chinese"; "LCR-English"]
    \/ exists p, In p SECTION_PHRASES /\
         (detect_section l s = p
          \/ detect_section l s = (Py.before_sep " - " s ++ " - " ++ p)%string)).
  { intros l s. unfold detect_section.
    destruct (String.eqb (Py.strip l) "Major/DSR"); [right; left; simpl; tauto|].
    destruct (SECTION_HEADER_RE l) as [g|] eqn:Eg.
    - right; right. exists g. split; [eapply first_group_phrase; exact Eg|].
      destruct (Py.contains "Major/DSR" s); tauto.
    - destruct (Py.mem (Py.strip l) ["GUR"; "LCR"]) eqn:Em.
      + apply mem_In in Em. right; left. simpl in *. tauto.
      + repeat match goal with
               | |- context [if ?b then _ else _] =>
                   destruct b; [right; left; simpl; tauto|]
               end.
        now left. }
  assert (Hstep : forall l s, detect_section l s = "UNKNOWN" -> s = "UNKNOWN").
  { intros l s E.
    destruct (Hrange l s) as [H|[H|(p & Hp & [H|H])]].
    - congruence.
    - rewrite E in H. simpl in H.
      repeat (destruct H as [H|H]; [discriminate H|]). contradiction.
    - rewrite E in H. subst p. simpl in Hp.
      repeat (destruct Hp as [Hp|Hp]; [discriminate Hp|]). contradiction.
    - rewrite E in H. symmetry in H.
      now apply prefixed_phrase_not_unknown in H. }
  split; [apply Hrange|]. split; [apply Hstep|].
  intros Hc n. unfold section_after.
  generalize (firstn n lines). intros ls. revert c Hc.
  induction ls as [|l ls IH]; intros c Hc; simpl; [exact Hc|].
  apply IH. intros E. apply Hc. eapply Hstep. exact E.
Qed.

Lemma detect_section_never_reverts_witness :
  section_after
    (firstn 2 ["GUR"; "COMP1234 Intro to Computing 3.0 A- 2023/1"; "x"])
    "Service Learning" <> "UNKNOWN".
Proof.
  destruct (detect_section_never_reverts "GUR" "Service Learning"
              ["GUR"; "COMP1234 Intro to Computing 3.0 A- 2023/1"; "x"])
    as (_ & _ & H).
  apply H. discriminate.
Defined.
(** ** Binary64: signs and order *)

Lemma shr_1_nonneg (mrs : shr_record) :
  (0 <= shr_m mrs)%Z -> (0 <= shr_m (shr_1 mrs))%Z.
Proof.
  destruct mrs as [m r s]. cbn [shr_m]. intros H.
  destruct m as [|p|p]; [cbn; lia | | lia].
  destruct p; cbn; lia.
Qed.

Lemma iter_pos_shr_nonneg (p : positive) (mrs : shr_record) :
  (0 <= shr_m mrs)%Z -> (0 <= shr_m (iter_pos shr_1 p mrs))%Z.
Proof.
  revert mrs. induction p as [p IH|p IH|]; intros mrs H; cbn [iter_pos].
  - apply IH, IH, shr_1_nonneg, H.
  - apply IH, IH, H.
  - apply shr_1_nonneg, H.
Qed.

Lemma shr_fexp_nonneg (m e : Z) (l : location) :
  (0 <= m)%Z -> (0 <= shr_m (fst (shr_fexp Fl.prec Fl.emax m e l)))%Z.
Proof.
  intros H. unfold shr_fexp, shr.
  assert (H0 : (0 <= shr_m (shr_record_of_loc m l))%Z).
  { destruct l as [|[| |]]; exact H. }
  destruct (fexp Fl.prec Fl.emax (Zdigits2 m + e) - e)%Z;
    cbn [fst]; [exact H0 | | exact H0].
  apply iter_pos_shr_nonneg, H0.
Qed.

Lemma round_nearest_even_nonneg (m : Z) (l : location) :
  (0 <= m)%Z -> (0 <= round_nearest_even m l)%Z.
Proof.
  intros H. unfold round_nearest_even.
  destruct l as [|[| |]]; try lia. destruct (Z.even m); lia.
Qed.

(** Rounding a non-negative mantissa gives a zero, a finite float or an
    infinity of the sign asked for, never NaN. *)
Lemma binary_round_aux_sign (sx : bool) (mx ex : Z) (lx : location) :
  (0 <= mx)%Z ->
  has_sign sx (binary_round_aux Fl.prec Fl.emax sx mx ex lx).
Proof.
  intros H. unfold binary_round_aux.
  pose proof (shr_fexp_nonneg mx ex lx H) as H1.
  destruct (shr_fexp Fl.prec Fl.emax mx ex lx) as [mrs' e'].
  cbn [fst] in H1.
  pose proof (shr_fexp_nonneg _ e' loc_Exact
                (round_nearest_even_nonneg _ (loc_of_shr_record mrs') H1))
    as H2.
  destruct (shr_fexp Fl.prec Fl.emax
              (round_nearest_even (shr_m mrs') (loc_of_shr_record mrs'))
              e' loc_Exact) as [mrs'' e''].
  cbn [fst] in H2.
  destruct (shr_m mrs'') as [|m|m]; [reflexivity | | lia].
  destruct (e'' <=? Fl.emax - Fl.prec)%Z; reflexivity.
Qed.

Lemma binary_round_sign (sx : bool) (mx : positive) (ex : Z) :
  has_sign sx (binary_round Fl.prec Fl.emax sx mx ex).
Proof.
  unfold binary_round.
  destruct (shl_align mx ex _) as [mz ez].
  apply binary_round_aux_sign. lia.
Qed.

Lemma has_sign_not_nan (s : bool) (x : float) :
  has_sign s x -> x <> S754_nan.
Proof. intros H ->. exact H. Qed.

Lemma div_eucl_nonneg (a : Z) (b : positive) :
  (0 <= a)%Z -> (0 <= fst (Z.div_eucl a (Zpos b)))%Z.
Proof.
  intros H. pose proof (Z.div_pos a (Zpos b) H ltac:(lia)) as K.
  unfold Z.div in K. exact K.
Qed.

(** The quotient of two finite floats has the product of their signs. *)
Lemma div_finite_sign (sx sy : bool) (mx my : positive) (ex ey : Z) :
  has_sign (xorb sx sy)
    (Fl.div (S754_finite sx mx ex) (S754_finite sy my ey)).
Proof.
  unfold Fl.div, SFdiv, SFdiv_core_binary.
  set (s := (ex - ey - _)%Z).
  set (m' := match s with
             | Z0 => Zpos mx
             | Zpos _ => Z.shiftl (Zpos mx) s
             | Zneg _ => 0%Z
             end).
  assert (Hm : (0 <= m')%Z).
  { subst m'. destruct s; try lia. apply Z.shiftl_nonneg. lia. }
  pose proof (div_eucl_nonneg m' my Hm) as Hq.
  destruct (Z.div_eucl m' (Zpos my)) as [q r]. cbn [fst] in Hq.
  apply binary_round_aux_sign, Hq.
Qed.

Lemma ratio_sign (neg : bool) (num den : positive) :
  has_sign neg (Fl.ratio neg num den).
Proof.
  unfold Fl.ratio.
  pose proof (div_finite_sign neg false num den 0 0) as H.
  now rewrite xorb_false_r in H.
Qed.

Lemma of_decimal_sign (neg : bool) (n : N) (k : Z) :
  has_sign neg (Fl.of_decimal neg n k).
Proof.
  unfold Fl.of_decimal. destruct n as [|p]; [reflexivity|].
  destruct k; try apply binary_round_sign. apply ratio_sign.
Qed.

(** Subtracting from a finite float gives NaN only for NaN. *)
Lemma sub_finite_not_nan (s : bool) (m : positive) (e : Z) (y : float) :
  y <> S754_nan -> Fl.sub (S754_finite s m e) y <> S754_nan.
Proof.
  intros Hy. destruct y as [sy|sy| |sy my ey]; [discriminate | discriminate | congruence |].
  unfold Fl.sub, SFsub, binary_normalize.
  destruct (_ - _)%Z; [discriminate | |];
    eapply has_sign_not_nan, binary_round_sign.
Qed.

Lemma abs_not_nan (x : float) : x <> S754_nan -> Fl.abs x <> S754_nan.
Proof. destruct x; intros H; try discriminate. congruence. Qed.

Lemma abs_nan (x : float) : Fl.abs x = S754_nan -> x = S754_nan.
Proof. destruct x; try discriminate. reflexivity. Qed.

(** On floats other than NaN, [<] is the lexicographic order of the ranks. *)
Lemma ltb_rank (x y : float) :
  x <> S754_nan -> y <> S754_nan ->
  (Fl.ltb x y = true <-> rank_lt (rank x) (rank y)).
Proof.
  intros Hx Hy. unfold Fl.ltb, SFltb, rank_lt.
  destruct x as [sx|sx| |sx mx ex]; [| |congruence|];
    (destruct y as [sy|sy| |sy my ey]; [| |congruence|]);
    try destruct sx; try destruct sy; cbn [SFcompare rank fst snd];
    try (split; [discriminate | lia]);
    try (split; [intros _; lia | reflexivity]).
  - change (Pos.compare_cont Eq mx my) with (Pos.compare mx my).
    destruct (Z.compare_spec ex ey) as [E|E|E];
      [destruct (Pos.compare_spec mx my) as [F|F|F]| |]; cbn [CompOpp];
      split; try discriminate; try reflexivity; try lia.
  - change (Pos.compare_cont Eq mx my) with (Pos.compare mx my).
    destruct (Z.compare_spec ex ey) as [E|E|E];
      [destruct (Pos.compare_spec mx my) as [F|F|F]| |];
      split; try discriminate; try reflexivity; try lia.
Qed.

Lemma ltb_nan_l (y : float) : Fl.ltb S754_nan y = false.
Proof. reflexivity. Qed.

Lemma ltb_nan_r (x : float) : Fl.ltb x S754_nan = false.
Proof. destruct x; reflexivity. Qed.

Lemma rank_lt_trans (a b c : Z * (Z * Z)) :
  rank_lt a b -> rank_lt b c -> rank_lt a c.
Proof. unfold rank_lt. lia. Qed.

Lemma rank_lt_neg_trans (a b c : Z * (Z * Z)) :
  rank_lt a b -> rank_lt a c \/ rank_lt c b.
Proof. unfold rank_lt. lia. Qed.

Lemma ltb_trans (x y z : float) :
  Fl.ltb x y = true -> Fl.ltb y z = true -> Fl.ltb x z = true.
Proof.
  intros H1 H2.
  assert (Hx : x <> S754_nan) by (intros ->; discriminate H1).
  assert (Hy : y <> S754_nan) by (intros ->; discriminate H2).
  assert (Hz : z <> S754_nan) by (intros ->; now rewrite ltb_nan_r in H2).
  apply ltb_rank in H1, H2; try assumption.
  apply ltb_rank; try assumption. eapply rank_lt_trans; eassumption.
Qed.

(** A float that is not below [y] is above every float below [y]. *)
Lemma ltb_below (x y z : float) :
  z <> S754_nan ->
  Fl.ltb x y = true -> Fl.ltb z y = false -> Fl.ltb x z = true.
Proof.
  intros Hz H1 H2.
  assert (Hx : x <> S754_nan) by (intros ->; discriminate H1).
  assert (Hy : y <> S754_nan) by (intros ->; now rewrite ltb_nan_r in H1).
  apply ltb_rank in H1; try assumption.
  destruct (rank_lt_neg_trans _ _ (rank z) H1) as [K|K].
  - now apply ltb_rank.
  - apply ltb_rank in K; try assumption. congruence.
Qed.

Lemma ltb_zero_nonzero (x : float) :
  Fl.ltb Fl.zero x = true -> Fl.is_zero x = false.
Proof. destruct x; try reflexivity. discriminate. Qed.

(** ** Aggregator *)


Lemma py_truediv_pos (x y : float) :
  Fl.ltb Fl.zero y = true -> py_truediv x y = Ok (Fl.div x y).
Proof.
  intros H. unfold py_truediv. now rewrite (ltb_zero_nonzero _ H).
Qed.

(** [compute_cgpa] performs its division only under the guard, so it
    returns for every list of records. *)
Lemma compute_cgpa_returns (records : list CourseRecord) :
  compute_cgpa records
  = Ok (mkCgpaInfo
          (if Fl.ltb Fl.zero (included_total_credits records)
           then Some (py_round (Fl.div (included_total_gp records)
                                  (included_total_credits records)) 3)
           else None)
          (py_round (included_total_credits records) 1)
          (py_round (included_total_gp records) 3)).
Proof.
  unfold compute_cgpa.
  destruct (Fl.ltb Fl.zero (included_total_credits records)) eqn:E.
  - rewrite (py_truediv_pos _ _ E). reflexivity.
  - reflexivity.
Qed.





(** C7, as the code has it: inside [compute_cgpa] the average is computed
    from the unrounded totals, but the goal projection made by the
    orchestrator reads the grade-point sum rounded to 3 places and the credit
    total rounded to 1 place back from the summary. *)
Theorem goal_projection_reads_rounded_summary
        (records : list CourseRecord) (goal : float) :
  exists info,
    compute_cgpa records = Ok info
    /\ current_cgpa info
       = (if Fl.ltb Fl.zero (included_total_credits records)
          then Some (py_round (Fl.div (included_total_gp records)
                                 (included_total_credits records)) 3)
          else None)
    /\ grade_points_sum info = py_round (included_total_gp records) 3
    /\ total_credits_counted info
       = py_round (included_total_credits records) 1
    /\ goal_from_summary info goal
       = compute_goal_strategy (py_round (included_total_gp records) 3)
           (py_round (included_total_credits records) 1) (fl "109.0") goal.
Proof.
  eexists. split; [apply compute_cgpa_returns|].
  cbn [current_cgpa grade_points_sum total_credits_counted].
  repeat split; reflexivity.
Qed.

(** C7, counterexample: for the parsed lines of a 1.0-credit A+ and a
    0.3-credit B- and the target 2.1331977064220187, the projection made
    from the summary requires an average of 2.111, the one made from the
    unrounded totals 2.112. *)
Lemma projection_from_unrounded_fails :
  ~ projection_from_unrounded (parsed_records fraction_lines)
      (fl "2.1331977064220187").
Proof.
  intros H.
  specialize (H _ (compute_cgpa_returns (parsed_records fraction_lines))).
  vm_compute in H. discriminate H.
Qed.

(** ** Goal projection *)

Lemma required_avg_defined (gp_sum cr total goal : float) :
  Fl.ltb Fl.zero (Fl.sub total cr) = true ->
  required_avg gp_sum cr total goal
  = Ok (Some (Fl.div (Fl.sub (Fl.mul total goal) gp_sum) (Fl.sub total cr))).
Proof.
  intros H. unfold required_avg.
  rewrite H, (py_truediv_pos _ _ H). reflexivity.
Qed.

Lemma required_avg_inv (gp_sum cr total goal a : float) :
  required_avg gp_sum cr total goal = Ok (Some a) ->
  Fl.ltb Fl.zero (Fl.sub total cr) = true
  /\ a = Fl.div (Fl.sub (Fl.mul total goal) gp_sum) (Fl.sub total cr).
Proof.
  intros H. destruct (Fl.ltb Fl.zero (Fl.sub total cr)) eqn:E.
  - rewrite (required_avg_defined gp_sum cr total goal E) in H.
    injection H as <-. now split.
  - unfold required_avg in H. rewrite E in H. discriminate H.
Qed.

Lemma compute_goal_strategy_defined (gp_sum cr total goal : float) :
  Fl.ltb Fl.zero (Fl.sub total cr) = true ->
  let a := Fl.div (Fl.sub (Fl.mul total goal) gp_sum) (Fl.sub total cr) in
  compute_goal_strategy gp_sum cr total goal
  = Ok (mkGoalInfo goal total (py_round (Fl.sub total cr) 1)
          (Some (py_round a 3))
          (Some ("~" ++ fst (min_from (band_distance a)
                               ("A+", fl "4.3") (tl bands)))%string)).
Proof.
  intros H a. unfold compute_goal_strategy.
  rewrite (required_avg_defined gp_sum cr total goal H). reflexivity.
Qed.

Lemma compute_goal_strategy_undefined (gp_sum cr total goal : float) :
  Fl.ltb Fl.zero (Fl.sub total cr) = false ->
  compute_goal_strategy gp_sum cr total goal
  = Ok (mkGoalInfo goal total (py_round (Fl.sub total cr) 1) None None).
Proof.
  intros H. unfold compute_goal_strategy, required_avg. rewrite H.
  reflexivity.
Qed.

(** With keys other than NaN, the result of [min_from] splits the scanned
    list into the elements seen before it, whose keys are all above its key,
    and those after it, none of whose keys is below its key. *)
Lemma min_from_spec {A} (key : A -> float) (l : list A) (best : A) :
  (forall x, In x (best :: l) -> key x <> S754_nan) ->
  exists pre post,
    best :: l = pre ++ min_from key best l :: post
    /\ Forall (fun x => Fl.ltb (key (min_from key best l)) (key x) = true) pre
    /\ Forall (fun x => Fl.ltb (key x) (key (min_from key best l)) = false)
         post.
Proof.
  revert best. induction l as [|x l IH]; intros best Hn; cbn [min_from].
  - exists [], []. repeat split; constructor.
  - destruct (Fl.ltb (key x) (key best)) eqn:E.
    + destruct (IH x) as (pre & post & Hd & Hpre & Hpost).
      { intros y Hy. apply Hn. now right. }
      remember (min_from key x l) as m eqn:Em. clear Em.
      assert (Hmb : Fl.ltb (key m) (key best) = true).
      { destruct pre as [|y pre]; cbn in Hd; injection Hd as Hx Hd; subst x.
        - exact E.
        - inversion Hpre; subst. eapply ltb_trans; eassumption. }
      exists (best :: pre), post. split; [cbn; now rewrite Hd|].
      split; [constructor; assumption | exact Hpost].
    + destruct (IH best) as (pre & post & Hd & Hpre & Hpost).
      { intros y [<-|Hy]; apply Hn; [now left | now right; right]. }
      remember (min_from key best l) as m eqn:Em. clear Em.
      destruct pre as [|y pre]; cbn in Hd; injection Hd as Hb Hd.
      * exists [], (x :: post). split; [cbn; now rewrite <- Hb, Hd|].
        split; [constructor|]. constructor; [rewrite <- Hb; exact E|].
        exact Hpost.
      * subst y. exists (best :: x :: pre), post.
        split; [cbn; now rewrite Hd|].
        inversion Hpre as [|? ? Hmb Hpre']; subst.
        split; [|exact Hpost].
        constructor; [exact Hmb|]. constructor; [|exact Hpre'].
        apply (ltb_below (key m) (key best) (key x));
          [apply Hn; right; now left | exact Hmb | exact E].
Qed.

Lemma min_from_In {A} (key : A -> float) (l : list A) (best : A) :
  In (min_from key best l) (best :: l).
Proof.
  revert best. induction l as [|x l IH]; intros best; cbn [min_from].
  - now left.
  - destruct (Fl.ltb (key x) (key best)).
    + right. apply IH.
    + destruct (IH best) as [H|H]; [now left | now right; right].
Qed.

(** Every band value is a finite float. *)
Lemma band_finite (b : string * float) :
  In b bands -> exists s m e, snd b = S754_finite s m e.
Proof.
  unfold bands. cbn [In].
  intros H.
  repeat (destruct H as [H|H];
          [subst b; vm_compute; do 3 eexists; reflexivity|]).
  contradiction.
Qed.

Lemma band_distance_not_nan (a : float) (b : string * float) :
  a <> S754_nan -> In b bands -> band_distance a b <> S754_nan.
Proof.
  intros Ha Hb. destruct (band_finite b Hb) as (s & m & e & E).
  unfold band_distance. rewrite E.
  apply abs_not_nan, sub_finite_not_nan, Ha.
Qed.

Lemma band_distance_nan (b : string * float) :
  In b bands -> band_distance S754_nan b = S754_nan.
Proof.
  intros Hb. destruct (band_finite b Hb) as (s & m & e & E).
  unfold band_distance. rewrite E. reflexivity.
Qed.

(** The band chosen for the required average [a]: every band listed before
    it is at a distance above its distance, no band listed after it is at a
    distance below its distance, the distances being the ones the program
    computes and compares. *)
Lemma closest_band (a : float) :
  exists lbl v pre post,
    min_from (band_distance a) ("A+", fl "4.3") (tl bands) = (lbl, v)
    /\ bands = pre ++ (lbl, v) :: post
    /\ Forall (fun b => Fl.ltb (band_distance a (lbl, v)) (band_distance a b)
                        = true) pre
    /\ Forall (fun b => Fl.ltb (band_distance a b) (band_distance a (lbl, v))
                        = false) post.
Proof.
  destruct (Fl.is_nan a) eqn:En.
  - destruct a; try discriminate En.
    exists "A+", (fl "4.3"), [], (tl bands).
    split; [vm_compute; reflexivity|]. split; [reflexivity|].
    split; [constructor|]. apply Forall_forall. intros b Hb.
    rewrite (band_distance_nan b); [reflexivity|]. now right.
  - assert (Ha : a <> S754_nan) by (intros ->; discriminate En).
    destruct (min_from_spec (band_distance a) (tl bands) ("A+", fl "4.3"))
      as (pre & post & Hd & Hpre & Hpost).
    { intros b Hb. now apply band_distance_not_nan. }
    destruct (min_from (band_distance a) ("A+", fl "4.3") (tl bands))
      as [lbl v].
    exists lbl, v, pre, post. repeat split; assumption.
Qed.

(** C6, as the code has it: when the required average is defined, the label
    returned is "~" followed by the label of the first band whose computed
    distance from it is minimal: every band listed earlier has a distance
    that compares above, no band listed later one that compares below, the
    distance being the binary64 value of [abs(b[1] - required_avg)].
    Nothing is clamped. *)
Theorem nearest_band_label (gp_sum cr total goal a : float) :
  required_avg gp_sum cr total goal = Ok (Some a) ->
  exists info lbl v pre post,
    compute_goal_strategy gp_sum cr total goal = Ok info
    /\ required_letter_equivalent info = Some ("~" ++ lbl)%string
    /\ bands = pre ++ (lbl, v) :: post
    /\ Forall (fun b => Fl.ltb (band_distance a (lbl, v)) (band_distance a b)
                        = true) pre
    /\ Forall (fun b => Fl.ltb (band_distance a b) (band_distance a (lbl, v))
                        = false) post.
Proof.
  intros H. destruct (required_avg_inv _ _ _ _ _ H) as [Hr Ea].
  destruct (closest_band a) as (lbl & v & pre & post & Em & Hd & Hpre & Hpost).
  exists (mkGoalInfo goal total (py_round (Fl.sub total cr) 1)
            (Some (py_round a 3)) (Some ("~" ++ lbl)%string)),
    lbl, v, pre, post.
  split.
  { rewrite (compute_goal_strategy_defined gp_sum cr total goal Hr).
    rewrite <- Ea, Em. reflexivity. }
  split; [reflexivity|]. split; [exact Hd|]. split; assumption.
Qed.

Lemma nearest_band_label_witness :
  exists info,
    compute_goal_strategy (fl "30.0") (fl "10.0") (fl "109.0") (fl "3.5")
    = Ok info
    /\ required_letter_equivalent info = Some "~A-".
Proof.
  destruct (nearest_band_label (fl "30.0") (fl "10.0") (fl "109.0") (fl "3.5")
              (Fl.div (Fl.sub (Fl.mul (fl "109.0") (fl "3.5")) (fl "30.0"))
                 (Fl.sub (fl "109.0") (fl "10.0"))))
    as (info & lbl & v & pre & post & Hi & Hl & _);
    [vm_compute; reflexivity|].
  exists info. split; [exact Hi|].
  assert (E : required_letter_equivalent info = Some "~A-").
  { revert Hi. vm_compute. intros [= <-]. reflexivity. }
  exact E.
Defined.

(** C6, counterexample: with no credits counted and the target -1e17 the
    required average is -1e17, below 2.0; the eight computed distances are
    all 1e17, and the label returned is that of the first band, "~A+", not
    that of the nearest endpoint band C. *)
Lemma outside_range_gives_endpoint_fails : ~ outside_range_gives_endpoint.
Proof.
  intros H.
  destruct (H (fl "0.0") (fl "0.0") (fl "109.0") (fl "-1e17")
              (fl "-1e17")
              (mkGoalInfo (fl "-1e17") (fl "109.0") (fl "109.0")
                 (Some (fl "-1e17")) (Some "~A+")))
    as [K _]; [vm_compute; reflexivity | vm_compute; reflexivity |].
  specialize (K ltac:(vm_compute; reflexivity)).
  discriminate K.
Qed.





(** ** Deduplicator *)

Lemma tuple_gt_spec (a b : nat * nat) :
  tuple_gt a b = true
  <-> (fst b < fst a)%nat \/ (fst a = fst b /\ (snd b < snd a)%nat).
Proof.
  unfold tuple_gt.
  rewrite orb_true_iff, andb_true_iff, !Nat.ltb_lt, Nat.eqb_eq. tauto.
Qed.

Lemma tuple_gt_false (a b : nat * nat) :
  tuple_gt a b = false
  <-> (fst a < fst b)%nat \/ (fst a = fst b /\ (snd a <= snd b)%nat).
Proof.
  destruct (tuple_gt a b) eqn:E.
  - apply tuple_gt_spec in E. split; [discriminate | lia].
  - split; [intros _ | reflexivity].
    destruct (lt_eq_lt_dec (fst a) (fst b)) as [[H|H]|H].
    + now left.
    + right. split; [exact H|].
      destruct (le_lt_dec (snd a) (snd b)) as [K|K]; [exact K|].
      assert (T : tuple_gt a b = true) by (apply tuple_gt_spec; lia).
      congruence.
    + assert (T : tuple_gt a b = true) by (apply tuple_gt_spec; lia).
      congruence.
Qed.

Lemma score_lt_trans (a b c : nat * nat) :
  score_lt a b -> score_lt b c -> score_lt a c.
Proof.
  unfold score_lt. rewrite !tuple_gt_spec. lia.
Qed.

Lemma score_le_lt_trans (a b c : nat * nat) :
  score_le a b -> score_lt b c -> score_lt a c.
Proof.
  unfold score_lt, score_le. rewrite tuple_gt_false, !tuple_gt_spec. lia.
Qed.

Lemma dict_set_fresh {V} (k : string) (v : V) (d : list (string * V)) :
  Py.lookup k d = None -> dict_set k v d = d ++ [(k, v)].
Proof.
  induction d as [|[k' v'] d IH]; simpl; [reflexivity|].
  destruct (String.eqb k k'); [discriminate|].
  intros H. now rewrite IH.
Qed.

Lemma dict_set_present {V} (k : string) (v c : V) (d : list (string * V)) :
  Py.lookup k d = Some c ->
  exists d1 d2, d = d1 ++ (k, c) :: d2 /\ dict_set k v d = d1 ++ (k, v) :: d2.
Proof.
  induction d as [|[k' v'] d IH]; simpl; [discriminate|].
  destruct (String.eqb_spec k k') as [<-|_].
  - intros [= ->]. now exists [], d.
  - intros H. destruct (IH H) as (d1 & d2 & -> & E).
    exists ((k', v') :: d1), d2. split; [reflexivity|]. simpl. now rewrite E.
Qed.

Lemma In_lookup {V} (k : string) (v : V) (d : list (string * V)) :
  NoDup (map fst d) -> In (k, v) d -> Py.lookup k d = Some v.
Proof.
  induction d as [|[k' v'] d IH]; simpl; [contradiction|].
  intros Hnd [E|Hin].
  - injection E as -> ->. now rewrite String.eqb_refl.
  - inversion Hnd as [|? ? Hnot Hnd']; subst.
    destruct (String.eqb_spec k k') as [->|_].
    + exfalso. apply Hnot. change k' with (fst (k', v)). now apply in_map.
    + now apply IH.
Qed.

Lemma leftmost_best_snoc (p : list CourseRecord) (k r : CourseRecord) :
  leftmost_best p k ->
  (course_code r = course_code k -> score_le (score r) (score k)) ->
  leftmost_best (p ++ [r]) k.
Proof.
  intros (before & after & -> & Hb & Ha) Hr.
  exists before, (after ++ [r]). split.
  - now rewrite <- app_assoc.
  - split; [exact Hb|]. intros x Hx Hc. apply in_app_or in Hx.
    destruct Hx as [Hx|[<-|[]]]; [now apply Ha | now apply Hr].
Qed.

Lemma leftmost_best_same_code (p : list CourseRecord) (c x : CourseRecord) :
  leftmost_best p c -> In x p -> course_code x = course_code c ->
  score_le (score x) (score c).
Proof.
  intros (before & after & -> & Hb & Ha) Hx Hc.
  apply in_app_or in Hx. destruct Hx as [Hx|[<-|Hx]].
  - specialize (Hb x Hx Hc). unfold score_lt, score_le in *.
    apply tuple_gt_spec in Hb. apply tuple_gt_false. lia.
  - unfold score_le. apply tuple_gt_false. lia.
  - now apply Ha.
Qed.

Lemma dedup_inv_init : dedup_inv [] ([], []).
Proof.
  unfold dedup_inv. simpl. repeat split; try constructor; try contradiction.
  exists []. split; [constructor | reflexivity].
Qed.

Lemma keys_of_kept (d : list (string * CourseRecord)) :
  Forall (fun kv => course_code (snd kv) = fst kv) d ->
  map course_code (map snd d) = map fst d.
Proof.
  induction 1 as [|kv d H _ IH]; simpl; [reflexivity | now rewrite H, IH].
Qed.

Lemma dedup_inv_step (p : list CourseRecord) (st : dedup_state)
      (r : CourseRecord) :
  dedup_inv p st -> dedup_inv (p ++ [r]) (dedup_step st r).
Proof.
  destruct st as [chosen logs].
  intros (Hnd & Hkey & Hcov & Hbest & dropped & Hperm & Hlog).
  cbn [fst snd] in *. unfold dedup_step.
  destruct (Py.lookup (course_code r) chosen) as [c|] eqn:El.
  - (* the code is already present *)
    pose proof (lookup_Some_In _ _ _ El) as Hin.
    assert (Hcc : course_code c = course_code r).
    { rewrite Forall_forall in Hkey. exact (Hkey _ Hin). }
    assert (Hothers : forall kv, In kv chosen -> fst kv <> course_code r ->
                                 leftmost_best (p ++ [r]) (snd kv)).
    { intros kv Hkv Hne. apply leftmost_best_snoc; [now apply Hbest|].
      intros E. exfalso. apply Hne.
      rewrite Forall_forall in Hkey. now rewrite <- (Hkey _ Hkv). }
    destruct (tuple_gt (score r) (score c)) eqn:Eg.
    + (* replaced *)
      destruct (dict_set_present (course_code r) r c chosen El)
        as (d1 & d2 & Hd & Hset).
      rewrite Hset. unfold dedup_inv. cbn [fst snd].
      assert (Hfst : map fst (d1 ++ (course_code r, r) :: d2) = map fst chosen).
      { rewrite Hd, !map_app. reflexivity. }
      rewrite Hfst. split; [exact Hnd|]. split.
      { rewrite Hd in Hkey. apply Forall_app in Hkey. destruct Hkey as [K1 K2].
        apply Forall_app. split; [exact K1|].
        inversion K2; subst. now constructor. }
      split.
      { intros x Hx. apply in_app_or in Hx. destruct Hx as [Hx|[<-|[]]].
        - now apply Hcov.
        - change (course_code r) with (fst (course_code r, c)).
          now apply in_map. }
      split.
      { intros kv Hkv.
        assert (Hcase : kv = (course_code r, r)
                        \/ (In kv chosen /\ fst kv <> course_code r)).
        { apply in_app_or in Hkv. rewrite Hd in Hnd.
          rewrite map_app in Hnd. cbn [map fst] in Hnd.
          apply NoDup_remove_2 in Hnd.
          destruct Hkv as [Hkv|[<-|Hkv]].
          - right. split; [rewrite Hd; apply in_or_app; now left|].
            intros E. apply Hnd. apply in_or_app. left.
            rewrite <- E. now apply in_map.
          - now left.
          - right. split; [rewrite Hd; apply in_or_app; right; now right|].
            intros E. apply Hnd. apply in_or_app. right.
            rewrite <- E. now apply in_map. }
        destruct Hcase as [->|[Hkv' Hne]]; [|now apply Hothers].
        cbn [snd]. exists p, []. split; [reflexivity|].
        split; [|intros ? []].
        intros x Hx Hc.
        assert (Hle : score_le (score x) (score c)).
        { apply (leftmost_best_same_code p); [exact (Hbest _ Hin) | exact Hx |].
          cbn [snd]. congruence. }
        exact (score_le_lt_trans _ _ _ Hle Eg). }
      exists (dropped ++ [c]). split.
      { rewrite Hd in Hperm. rewrite !map_app in *. cbn [map snd] in *.
        rewrite Hperm.
        rewrite <- !app_assoc. cbn [app].
        apply Permutation_app_head.
        rewrite !(app_assoc (map snd d2)).
        set (tail := map snd d2 ++ dropped).
        transitivity (c :: r :: tail).
        - apply perm_skip. apply Permutation_sym, Permutation_cons_append.
        - transitivity (r :: c :: tail); [apply perm_swap|].
          apply perm_skip. apply Permutation_cons_append. }
      rewrite !map_app. cbn [map]. cbn [log_course_code dropped_section].
      now rewrite Hlog.
    + (* dropped *)
      unfold dedup_inv. cbn [fst snd].
      split; [exact Hnd|]. split; [exact Hkey|]. split.
      { intros x Hx. apply in_app_or in Hx. destruct Hx as [Hx|[<-|[]]].
        - now apply Hcov.
        - change (course_code r) with (fst (course_code r, c)).
          now apply in_map. }
      split.
      { intros kv Hkv.
        destruct (String.eqb_spec (fst kv) (course_code r)) as [E|Hne];
          [|now apply Hothers].
        assert (Ekv : snd kv = c).
        { destruct kv as [k v]. cbn [fst snd] in *. subst k.
          pose proof (In_lookup _ _ _ Hnd Hkv) as L. congruence. }
        rewrite Ekv. apply leftmost_best_snoc; [exact (Hbest _ Hin)|].
        intros _. exact Eg. }
      exists (dropped ++ [r]). split.
      { rewrite app_assoc. now apply Permutation_app_tail. }
      rewrite !map_app. cbn [map]. cbn [log_course_code dropped_section].
      now rewrite Hlog.
  - (* a new code *)
    rewrite (dict_set_fresh _ _ _ El). unfold dedup_inv. cbn [fst snd].
    pose proof (proj1 (lookup_None_keys _ _) El) as Hfresh.
    rewrite !map_app. cbn [map fst snd].
    split.
    { apply (Permutation_NoDup (l := course_code r :: map fst chosen)).
      - apply Permutation_cons_append.
      - now constructor. }
    split; [apply Forall_app; split; [exact Hkey | now constructor]|].
    split.
    { intros x Hx. apply in_or_app. apply in_app_or in Hx.
      destruct Hx as [Hx|[<-|[]]]; [left; now apply Hcov | right; now left]. }
    split.
    { intros kv Hkv. apply in_app_or in Hkv. destruct Hkv as [Hkv|[<-|[]]].
      - apply leftmost_best_snoc; [now apply Hbest|].
        intros E. exfalso. apply Hfresh. rewrite E.
        rewrite Forall_forall in Hkey. rewrite (Hkey _ Hkv). now apply in_map.
      - cbn [snd]. exists p, []. split; [reflexivity|].
        split; [|intros ? []].
        intros x Hx Hc. exfalso. apply Hfresh. rewrite <- Hc. now apply Hcov. }
    exists dropped. split; [|exact Hlog].
    rewrite Hperm. rewrite <- !app_assoc.
    apply Permutation_app_head. apply Permutation_app_comm.
Qed.

Lemma dedup_inv_fold (l p : list CourseRecord) (st : dedup_state) :
  dedup_inv p st -> dedup_inv (p ++ l) (fold_left dedup_step l st).
Proof.
  revert p st. induction l as [|r l IH]; intros p st H; simpl.
  - now rewrite app_nil_r.
  - replace (p ++ r :: l) with ((p ++ [r]) ++ l)
      by (now rewrite <- app_assoc).
    apply IH. now apply dedup_inv_step.
Qed.

(** C1: the deduplicated output has at most one record per course code (and
    one for every code of the input); each kept record is the leftmost record
    of maximal priority tuple among the input records with its code, which is
    what the left-to-right fold with replacement on strictly higher score
    reaches; the records not kept are, one for one, the records the log
    entries name by code and section, so the codes of the kept records
    together with the codes logged are the codes of the input with
    multiplicity. *)
Theorem dedup_by_course_code_spec (records : list CourseRecord) :
  let kept := fst (dedup_by_course_code records) in
  let logs := snd (dedup_by_course_code records) in
  NoDup (map course_code kept)
  /\ (forall r, In r records -> In (course_code r) (map course_code kept))
  /\ (forall k, In k kept -> leftmost_best records k)
  /\ (exists dropped,
        Permutation records (kept ++ dropped)
        /\ map (fun r => (course_code r, section r)) dropped
           = map (fun e => (log_course_code e, dropped_section e)) logs)
  /\ Permutation (map course_code records)
       (map course_code kept ++ map log_course_code logs).
Proof.
  pose proof (dedup_inv_fold records [] ([], []) dedup_inv_init) as H.
  cbn [app] in H. unfold dedup_by_course_code.
  destruct (fold_left dedup_step records ([], [])) as [chosen logs].
  destruct H as (Hnd & Hkey & Hcov & Hbest & dropped & Hperm & Hlog).
  cbn [fst snd] in *.
  rewrite (keys_of_kept _ Hkey).
  split; [exact Hnd|]. split; [exact Hcov|]. split.
  { intros k Hk. apply in_map_iff in Hk. destruct Hk as (kv & <- & Hkv).
    now apply Hbest. }
  split; [exists dropped; now split|].
  apply (Permutation_map course_code) in Hperm.
  rewrite map_app, (keys_of_kept _ Hkey) in Hperm.
  assert (Hc : map course_code dropped = map log_course_code logs).
  { apply (f_equal (map fst)) in Hlog. rewrite !map_map in Hlog. exact Hlog. }
  rewrite Hperm, Hc. apply Permutation_refl.
Qed.

Lemma dedup_by_course_code_spec_witness :
  In graded_row (fst (dedup_by_course_code retake_pair))
  /\ leftmost_best retake_pair graded_row.
Proof.
  assert (Hin : In graded_row (fst (dedup_by_course_code retake_pair)))
    by (vm_compute; left; reflexivity).
  destruct (dedup_by_course_code_spec retake_pair) as (_ & _ & Hb & _).
  split; [exact Hin | exact (Hb graded_row Hin)].
Defined.

(** The two orders of one pair: the graded row is kept either way, and the
    log tells whether it replaced the other row or the other row was
    dropped. *)
Example dedup_pair_replaced :
  dedup_by_course_code [no_result_row; graded_row]
  = ([graded_row],
     [mkDedupLog "APSS1BN04" "Service Learning" "GUR"
        "dedup_replaced_with_higher_priority_record"]).
Proof. reflexivity. Qed.

Example dedup_pair_dropped :
  dedup_by_course_code [graded_row; no_result_row]
  = ([graded_row],
     [mkDedupLog "APSS1BN04" "Service Learning" "GUR"
        "dedup_dropped_lower_priority_record"]).
Proof. reflexivity. Qed.

(** ** Line parser: tokens and the credit value *)

Lemma rep_spec (p : ascii -> bool) (hi lo : nat) (s r : string) :
  In r (Re.rep p lo hi s) ->
  exists pre, s = (pre ++ r)%string /\ all_chars p pre = true
              /\ (lo <= String.length pre <= hi)%nat.
Proof.
  revert lo s. induction hi as [|hi IH]; intros lo s; cbn [Re.rep].
  - destruct (Nat.eqb_spec lo 0) as [->|_]; [|intros []].
    intros [<-|[]]. exists ""%string. repeat split; simpl; lia.
  - intros H. apply in_app_or in H. destruct H as [H|H].
    + destruct s as [|c s]; [destruct H|].
      destruct (p c) eqn:Ec; [|destruct H].
      destruct (IH _ _ H) as (pre & -> & Hall & Hlen).
      exists (String c pre). cbn [append all_chars String.length].
      rewrite Ec, Hall. repeat split; lia.
    + destruct (Nat.eqb_spec lo 0) as [->|_]; [|destruct H].
      destruct H as [<-|[]]. exists ""%string. repeat split; simpl; lia.
Qed.

Lemma lit_dot (s r : string) :
  In r (Re.lit "." s) -> s = String "." r.
Proof.
  unfold Re.lit. destruct s as [|c s]; cbn [Py.startswith In]; [intros []|].
  destruct (Ascii.eqb_spec "."%char c) as [<-|_];
    cbn [andb In Py.drop String.length]; [|intros []].
  now intros [<-|[]].
Qed.

(** The shape of a token accepted by [CREDIT_RE]. *)
Lemma CREDIT_RE_shape (t : string) :
  CREDIT_RE t = true ->
  exists ds d tail,
    t = (ds ++ String "." (String d tail))%string
    /\ all_chars Py.is_digit ds = true /\ ds <> ""%string
    /\ Py.is_digit d = true
    /\ (tail = ""%string \/ tail = String (ascii_of_nat 10) "").
Proof.
  unfold CREDIT_RE, Re.matches, Re.seq, Re.plus. intros H.
  apply existsb_exists in H. destruct H as (r3 & Hin & Hend).
  apply in_flat_map in Hin. destruct Hin as (r1 & H1 & Hin).
  apply in_flat_map in Hin. destruct Hin as (r2 & H2 & H3).
  apply rep_spec in H1. destruct H1 as (ds & -> & Hds & Hlen).
  apply lit_dot in H2. subst r1.
  apply rep_spec in H3. destruct H3 as (one & -> & Hone & Hlen1).
  destruct one as [|d [|? ?]]; cbn in Hlen1; try lia.
  cbn in Hone. rewrite andb_true_r in Hone.
  exists ds, d, r3. split; [reflexivity|]. split; [exact Hds|].
  split; [intros ->; cbn in Hlen; lia|]. split; [exact Hone|].
  unfold Re.at_end in Hend. apply orb_true_iff in Hend.
  destruct Hend as [E|E]; apply String.eqb_eq in E; tauto.
Qed.

Lemma digit_not_space (c : ascii) :
  Py.is_digit c = true -> Py.is_space c = false.
Proof.
  destruct c as [b0 b1 b2 b3 b4 b5 b6 b7].
  destruct b0, b1, b2, b3, b4, b5, b6, b7; vm_compute; intros H;
    try discriminate H; reflexivity.
Qed.

Lemma split_sign_digit (c : ascii) (s : string) :
  Py.is_digit c = true -> split_sign (String c s) = (false, String c s).
Proof.
  destruct c as [b0 b1 b2 b3 b4 b5 b6 b7].
  destruct b0, b1, b2, b3, b4, b5, b6, b7; vm_compute; intros H;
    try discriminate H; reflexivity.
Qed.

Lemma rstrip_digits (ds s : string) :
  all_chars Py.is_digit ds = true ->
  Py.rstrip (ds ++ s) = (ds ++ Py.rstrip s)%string.
Proof.
  induction ds as [|c ds IH]; cbn [append all_chars Py.rstrip];
    [reflexivity|].
  intros H. apply andb_true_iff in H. destruct H as [Hc Hds].
  rewrite (digit_not_space _ Hc), andb_false_r, (IH Hds). reflexivity.
Qed.

Lemma span_digits_app (ds s : string) :
  all_chars Py.is_digit ds = true ->
  span_digits (ds ++ String "." s) = (ds, String "." s).
Proof.
  induction ds as [|c ds IH]; cbn [append all_chars span_digits].
  - intros _. reflexivity.
  - intros H. apply andb_true_iff in H. destruct H as [Hc Hds].
    now rewrite Hc, (IH Hds).
Qed.

Lemma digit_not_underscore (c : ascii) :
  Py.is_digit c = true -> Ascii.eqb c "_" = false.
Proof.
  destruct c as [b0 b1 b2 b3 b4 b5 b6 b7].
  destruct b0, b1, b2, b3, b4, b5, b6, b7; vm_compute; intros H;
    try discriminate H; reflexivity.
Qed.

Lemma digit_lower (c : ascii) : Py.is_digit c = true -> lower c = c.
Proof.
  destruct c as [b0 b1 b2 b3 b4 b5 b6 b7].
  destruct b0, b1, b2, b3, b4, b5, b6, b7; vm_compute; intros H;
    try discriminate H; reflexivity.
Qed.

Lemma numeral_char_not_underscore (c : ascii) :
  numeral_char c = true -> Ascii.eqb c "_" = false.
Proof.
  unfold numeral_char. intros H. apply orb_true_iff in H.
  destruct H as [H|H]; [now apply digit_not_underscore|].
  apply Ascii.eqb_eq in H. now subst c.
Qed.

Lemma underscores_ok_numeral (s : string) (prev : ascii) :
  Ascii.eqb prev "_" = false -> all_chars numeral_char s = true ->
  underscores_ok prev s = true.
Proof.
  revert prev. induction s as [|c s IH]; intros prev Hp H;
    cbn [underscores_ok all_chars] in *.
  - now rewrite Hp.
  - apply andb_true_iff in H. destruct H as [Hc Hs].
    pose proof (numeral_char_not_underscore _ Hc) as Hu.
    rewrite Hu, Hp. cbn [negb orb andb]. now apply IH.
Qed.

Lemma remove_underscores_numeral (s : string) :
  all_chars numeral_char s = true -> remove_underscores s = s.
Proof.
  induction s as [|c s IH]; cbn [remove_underscores all_chars];
    [reflexivity|].
  intros H. apply andb_true_iff in H. destruct H as [Hc Hs].
  now rewrite (numeral_char_not_underscore _ Hc), (IH Hs).
Qed.

Lemma all_chars_app (p : ascii -> bool) (s t : string) :
  all_chars p (s ++ t) = all_chars p s && all_chars p t.
Proof.
  induction s as [|c s IH]; cbn [append all_chars]; [reflexivity|].
  now rewrite IH, andb_assoc.
Qed.

Lemma all_chars_weaken (p q : ascii -> bool) (s : string) :
  (forall c, p c = true -> q c = true) ->
  all_chars p s = true -> all_chars q s = true.
Proof.
  intros Hpq. induction s as [|c s IH]; cbn [all_chars]; [reflexivity|].
  intros H. apply andb_true_iff in H. destruct H as [Hc Hs].
  now rewrite (Hpq _ Hc), (IH Hs).
Qed.

(** A numeral that starts with a digit is none of the words [inf],
    [infinity] and [nan]. *)
Lemma digit_head_not_word (c h : ascii) (s w : string) :
  Py.is_digit c = true -> Py.is_digit h = false ->
  String.eqb (lower_string (String c s)) (String h w) = false.
Proof.
  intros Hc Hh. cbn [lower_string String.eqb]. rewrite (digit_lower _ Hc).
  destruct (Ascii.eqb_spec c h) as [->|_]; [congruence | reflexivity].
Qed.

(** [float] on a token accepted by [CREDIT_RE]: the double nearest to a
    natural number of tenths. *)
Lemma py_float_credit_value (t : string) :
  CREDIT_RE t = true ->
  exists n : N, py_float t = Ok (Fl.of_decimal false n (-1)).
Proof.
  intros H. destruct (CREDIT_RE_shape _ H)
    as (ds & d & tail & -> & Hds & Hne & Hd & Htail).
  destruct ds as [|c ds]; [congruence|]. clear Hne.
  pose proof Hds as Hall. cbn [all_chars] in Hds.
  apply andb_true_iff in Hds. destruct Hds as [Hc Hds].
  assert (Hstrip : Py.strip (String c ds ++ String "." (String d tail))
                   = (String c ds ++ String "." (String d ""))%string).
  { unfold Py.strip. cbn [append Py.lstrip].
    rewrite (digit_not_space _ Hc).
    change (String c (ds ++ String "." (String d tail)))
      with (String c ds ++ String "." (String d tail))%string.
    rewrite (rstrip_digits _ _ Hall). f_equal.
    cbn [Py.rstrip].
    assert (Et : Py.rstrip tail = ""%string)
      by (destruct Htail as [->| ->]; reflexivity).
    rewrite Et. cbn [Py.is_empty andb].
    rewrite (digit_not_space _ Hd).
    destruct (Py.is_space "."); reflexivity. }
  assert (Hnum : all_chars numeral_char
                   (String c ds ++ String "." (String d "")) = true).
  { rewrite all_chars_app.
    rewrite (all_chars_weaken Py.is_digit numeral_char (String c ds));
      [|intros x Hx; unfold numeral_char; now rewrite Hx | exact Hall].
    cbn [all_chars andb]. unfold numeral_char at 2. rewrite Hd.
    reflexivity. }
  unfold py_float. rewrite Hstrip.
  rewrite (underscores_ok_numeral _ (ascii_of_nat 0) eq_refl Hnum).
  rewrite (remove_underscores_numeral _ Hnum).
  cbn [negb append].
  rewrite (split_sign_digit _ _ Hc).
  rewrite (digit_head_not_word c "i" _ "nf" Hc eq_refl).
  rewrite (digit_head_not_word c "i" _ "nfinity" Hc eq_refl).
  rewrite (digit_head_not_word c "n" _ "an" Hc eq_refl). cbn [orb].
  change (String c (ds ++ String "." (String d "")))
    with (String c ds ++ String "." (String d ""))%string.
  rewrite (span_digits_app _ _ Hall).
  cbn [span_digits]. rewrite Hd. cbn [Py.is_empty andb exponent].
  eexists. reflexivity.
Qed.

(** [float] succeeds on every token accepted by [CREDIT_RE]. *)
Lemma py_float_credit (t : string) :
  CREDIT_RE t = true -> exists q, py_float t = Ok q.
Proof.
  intros H. destruct (py_float_credit_value t H) as (n & E).
  eexists. exact E.
Qed.

Lemma find_credit_idx_spec (l : list string) (i idx : nat) :
  find_credit_idx i l = Some idx ->
  (i <= idx)%nat /\ CREDIT_RE (nth (idx - i) l "") = true.
Proof.
  revert i. induction l as [|t l IH]; intros i; cbn [find_credit_idx];
    [discriminate|].
  destruct (CREDIT_RE t) eqn:E.
  - intros [= <-]. rewrite Nat.sub_diag. now split.
  - intros H. destruct (IH _ H) as [Hle Hc]. split; [lia|].
    replace (idx - i)%nat with (S (idx - S i)) by lia. exact Hc.
Qed.

Lemma find_credit_idx_first (title rest : list string) (credit : string)
      (i : nat) :
  forallb (fun t => negb (CREDIT_RE t)) title = true ->
  CREDIT_RE credit = true ->
  find_credit_idx i (title ++ credit :: rest) = Some (i + length title)%nat.
Proof.
  revert i. induction title as [|t title IH]; intros i Ht Hc;
    cbn [app find_credit_idx length].
  - rewrite Hc. f_equal. lia.
  - cbn [forallb] in Ht. apply andb_true_iff in Ht. destruct Ht as [Ht Hts].
    apply negb_true_iff in Ht. rewrite Ht, (IH (S i) Hts Hc). f_equal. lia.
Qed.

(** [parse_course_from_line] returns for every line: the only call that
    could raise is [float], applied to a token accepted by [CREDIT_RE]. *)
Lemma parse_course_from_line_returns (line sec : string) :
  exists o, parse_course_from_line line sec = Ok o.
Proof.
  unfold parse_course_from_line.
  destruct (Py.split_ws line) as [|code after_code]; [now eexists|].
  destruct (COURSE_CODE_RE code); cbn [negb]; [|now eexists].
  destruct (find_credit_idx 1 after_code) as [idx|] eqn:Ef; [|now eexists].
  apply find_credit_idx_spec in Ef. destruct Ef as [Hle Hc].
  assert (En : nth idx (code :: after_code) "" = nth (idx - 1) after_code "").
  { destruct idx as [|idx]; [lia|].
    replace (S idx - 1)%nat with idx by lia. reflexivity. }
  rewrite En. destruct (py_float_credit _ Hc) as (q & ->). cbn [res_bind].
  destruct (strip_duplicate _) as [dup rest1].
  destruct (strip_term rest1) as [ys rest2].
  destruct (classify_result _) as [st gp]. now eexists.
Qed.

Lemma run_loop_returns (lines : list string) (st : string * list CourseRecord) :
  exists st', run_loop lines st = Ok st'.
Proof.
  revert st. induction lines as [|l lines IH]; intros [sec recs];
    cbn [run_loop]; [now eexists|].
  unfold loop_step.
  destruct (parse_course_from_line_returns l (detect_section l sec))
    as (o & ->).
  cbn [res_bind]. apply IH.
Qed.

(** ** Line parser: the trailing tokens *)

Lemma nonempty_snoc {A} (pre : list A) (t : A) : nonempty (pre ++ [t]) = true.
Proof. destruct pre; reflexivity. Qed.

Lemma snoc_last (l : list string) :
  nonempty l = true -> l = but_last l ++ [last_tok l].
Proof.
  intros H. apply app_removelast_last. intros ->. discriminate H.
Qed.

Lemma strip_duplicate_spec (rest : list string) :
  (exists pre, rest = pre ++ ["Y"]
               /\ strip_duplicate rest = (true, pre))
  \/ ((forall pre, rest <> pre ++ ["Y"])
      /\ strip_duplicate rest = (false, rest)).
Proof.
  unfold strip_duplicate.
  destruct (nonempty rest && String.eqb (last_tok rest) "Y") eqn:E.
  - left. apply andb_true_iff in E. destruct E as [Hn Hy].
    apply String.eqb_eq in Hy. exists (but_last rest).
    split; [|reflexivity]. rewrite <- Hy. now apply snoc_last.
  - right. split; [|reflexivity]. intros pre ->.
    rewrite nonempty_snoc in E. unfold last_tok in E.
    rewrite last_last in E. discriminate E.
Qed.

Lemma strip_term_spec (rest : list string) :
  (exists pre t, rest = pre ++ [t] /\ SEM_RE t = true
                 /\ strip_term rest = (t, pre))
  \/ ((forall pre t, rest = pre ++ [t] -> SEM_RE t = false)
      /\ strip_term rest = ("", rest)).
Proof.
  unfold strip_term.
  destruct (nonempty rest && SEM_RE (last_tok rest)) eqn:E.
  - left. apply andb_true_iff in E. destruct E as [Hn Hs].
    exists (but_last rest), (last_tok rest).
    split; [now apply snoc_last|]. now split.
  - right. split; [|reflexivity]. intros pre t ->.
    rewrite nonempty_snoc in E. unfold last_tok in E.
    rewrite last_last in E. exact E.
Qed.

Lemma first_or_empty_hd (l : list string) : first_or_empty l = hd "" l.
Proof. destruct l; reflexivity. Qed.

(** C5: on a course line, with [rest] the tokens after the credits token,
    a final "Y" is removed first and sets [duplicate], a final term of what
    is left is removed next and becomes [year_sem], and the first token then
    left is [result]; in particular when [rest] is a result token followed by
    "Y" and the result token is no term, the record has [duplicate] true and
    that token as its result. *)
Theorem trailing_tokens_order (line sec code credit : string)
        (title rest : list string) :
  Py.split_ws line = code :: title ++ credit :: rest ->
  COURSE_CODE_RE code = true ->
  forallb (fun t => negb (CREDIT_RE t)) title = true ->
  CREDIT_RE credit = true ->
  exists r,
    parse_course_from_line line sec = Ok (Some r)
    /\ course_code r = code
    /\ trailing_fields rest (duplicate r) (year_sem r) (result r)
    /\ (forall res, rest = [res; "Y"] -> SEM_RE res = false ->
          duplicate r = true /\ year_sem r = "" /\ result r = res).
Proof.
  intros Htok Hcode Htitle Hcredit.
  unfold parse_course_from_line. rewrite Htok, Hcode. cbn [negb].
  rewrite (find_credit_idx_first title rest credit 1 Htitle Hcredit).
  assert (Enth : nth (1 + length title) (code :: title ++ credit :: rest) ""
                 = credit).
  { cbn [Nat.add nth]. rewrite app_nth2 by lia.
    now rewrite Nat.sub_diag. }
  assert (Erest : skipn (1 + length title + 1)
                    (code :: title ++ credit :: rest) = rest).
  { replace (1 + length title + 1)%nat with (S (length title + 1)) by lia.
    cbn [skipn]. rewrite skipn_app, skipn_all2 by lia.
    replace (length title + 1 - length title)%nat with 1%nat by lia.
    reflexivity. }
  rewrite Enth, Erest.
  destruct (py_float_credit _ Hcredit) as (q & ->). cbn [res_bind].
  destruct (strip_duplicate rest) as [dup rest1] eqn:Ed.
  destruct (strip_term rest1) as [ys rest2] eqn:Et.
  destruct (classify_result (first_or_empty rest2)) as [st gp].
  eexists. split; [reflexivity|].
  cbn [course_code duplicate year_sem result].
  split; [reflexivity|]. split.
  - exists rest1, rest2. split; [|split].
    + destruct (strip_duplicate_spec rest) as [(pre & Hr & Hs)|(Hn & Hs)];
        rewrite Ed in Hs; injection Hs as -> ->.
      * left. exists pre. auto.
      * right. auto.
    + destruct (strip_term_spec rest1) as [(pre & t & Hr & Hm & Hs)|(Hn & Hs)];
        rewrite Et in Hs; injection Hs as -> ->.
      * left. exists pre, t. auto.
      * right. auto.
    + apply first_or_empty_hd.
  - intros res -> Hsem.
    unfold strip_duplicate in Ed. cbn in Ed. injection Ed as <- <-.
    unfold strip_term in Et. cbn [nonempty last_tok last andb but_last removelast] in Et.
    rewrite Hsem in Et. injection Et as <- <-. now repeat split.
Qed.

Lemma trailing_tokens_order_witness :
  exists r,
    parse_course_from_line "AMA1100 Calculus 3.0 B+ Y" "GUR" = Ok (Some r)
    /\ duplicate r = true /\ year_sem r = "" /\ result r = "B+".
Proof.
  destruct (trailing_tokens_order "AMA1100 Calculus 3.0 B+ Y" "GUR"
              "AMA1100" "3.0" ["Calculus"] ["B+"; "Y"])
    as (r & Hr & _ & _ & Hp);
    [reflexivity | reflexivity | reflexivity | reflexivity |].
  exists r. split; [exact Hr|]. apply (Hp "B+"); reflexivity.
Defined.
(** ** Orchestrator *)

Lemma compute_goal_strategy_returns (gp_sum cr total goal : float) :
  exists info, compute_goal_strategy gp_sum cr total goal = Ok info.
Proof.
  destruct (Fl.ltb Fl.zero (Fl.sub total cr)) eqn:E.
  - eexists. apply (compute_goal_strategy_defined _ _ _ _ E).
  - eexists. apply (compute_goal_strategy_undefined _ _ _ _ E).
Qed.

(** Five output actions in a row: the ones before the first that fails are
    recorded, the sequence returns when none fails, and when it raises it
    raises the exception with which one of the five actions failed. *)
Lemma outputs_run (a b c d e : event) (w : world) :
  exists n,
    trace (snd ((perform a ;;; perform b ;;; perform c ;;; perform d ;;;
                 perform e) w))
    = trace w ++ firstn n [a; b; c; d; e]
    /\ (fst ((perform a ;;; perform b ;;; perform c ;;; perform d ;;;
              perform e) w) = Ok tt <-> (5 <= n)%nat)
    /\ (forall x,
          fst ((perform a ;;; perform b ;;; perform c ;;; perform d ;;;
                perform e) w) = Raise x ->
          exists ev, In ev [a; b; c; d; e] /\ io_error w ev = Some x).
Proof.
  unfold bind, perform, emit.
  destruct (io_error w a) eqn:Ea.
  { exists 0%nat. cbn. rewrite app_nil_r. split; [reflexivity|].
    split; [split; [discriminate | lia]|].
    intros x [= <-]. exists a. tauto. }
  cbn [io_error stdin documents trace].
  destruct (io_error w b) eqn:Eb.
  { exists 1%nat. cbn. split; [reflexivity|].
    split; [split; [discriminate | lia]|].
    intros x [= <-]. exists b. tauto. }
  cbn [io_error stdin documents trace].
  destruct (io_error w c) eqn:Ec.
  { exists 2%nat. cbn. rewrite <- !app_assoc.
    split; [reflexivity|]. split; [split; [discriminate | lia]|].
    intros x [= <-]. exists c. tauto. }
  cbn [io_error stdin documents trace].
  destruct (io_error w d) eqn:Ed.
  { exists 3%nat. cbn. rewrite <- !app_assoc.
    split; [reflexivity|]. split; [split; [discriminate | lia]|].
    intros x [= <-]. exists d. tauto. }
  cbn [io_error stdin documents trace].
  destruct (io_error w e) eqn:Ee.
  { exists 4%nat. cbn. rewrite <- !app_assoc.
    split; [reflexivity|]. split; [split; [discriminate | lia]|].
    intros x [= <-]. exists e. tauto. }
  exists 5%nat. cbn. rewrite <- !app_assoc.
  split; [reflexivity|]. split; [split; [lia | reflexivity]|].
  intros x K. discriminate K.
Qed.

(** The run of [main] on a console holding the path and the target, over a
    document the provider can open. *)
Lemma main_run (w : world) (path target : string) (rest : list (res string))
      (pages : list string) :
  stdin w = Ok path :: Ok target :: rest ->
  documents w (Py.strip path) = Ok pages ->
  (forall e, py_float (Py.strip target) = Raise e ->
     main w = (Raise e,
               mkWorld rest (documents w) (io_error w)
                 (trace w ++ pipeline_events path target)))
  /\ (forall g, py_float (Py.strip target) = Ok g ->
        exists s c more,
          trace (snd (main w))
          = trace w ++ pipeline_events path target
              ++ Projected s c (fl "109.0") g :: more).
Proof.
  intros Hin Hdoc.
  assert (Hrun : forall P : res unit * world -> Prop,
             (forall deduped dedup_logs,
                 P ((goal_value <~ lift (py_float (Py.strip target)) ;;
                     emit (Projected
                             (py_round (included_total_gp deduped) 3)
                             (py_round (included_total_credits deduped) 1)
                             (fl "109.0") goal_value) ;;;
                     goal <~ lift (compute_goal_strategy
                                     (py_round (included_total_gp deduped) 3)
                                     (py_round (included_total_credits deduped) 1)
                                     (fl "109.0") goal_value) ;;
                     let cgpa_info :=
                       mkCgpaInfo
                         (if Fl.ltb Fl.zero (included_total_credits deduped)
                          then Some (py_round
                                       (Fl.div (included_total_gp deduped)
                                          (included_total_credits deduped))
                                       3)
                          else None)
                         (py_round (included_total_credits deduped) 1)
                         (py_round (included_total_gp deduped) 3) in
                     perform (Created REPORT_FILE) ;;;
                     perform (Wrote REPORT_FILE
                                (mkReport "PolyU" "4.3" cgpa_info goal
                                   (sorted_courses deduped) dedup_logs
                                   (exclusion_logs deduped))) ;;;
                     perform (Printed [PStr "Saved: transcript_parsed.json"]) ;;;
                     perform (Printed [PStr "Current CGPA:";
                                       PNum (current_cgpa cgpa_info);
                                       PStr "Credits counted:";
                                       PNum (Some (total_credits_counted
                                                     cgpa_info))]) ;;;
                     perform (Printed [PStr "Goal required avg GP:";
                                       PNum (required_average_gp goal);
                                       PStr "(";
                                       POptStr (required_letter_equivalent
                                                  goal);
                                       PStr ")"]))
                      (mkWorld rest (documents w) (io_error w)
                         (trace w ++ pipeline_events path target)))) ->
             P (main w)).
  { intros P HP.
    unfold main. unfold bind at 1. unfold input at 1. rewrite Hin.
    cbn [stdin documents trace io_error].
    unfold bind at 1. unfold extract_text_pages, bind at 1, emit at 1.
    cbn [stdin documents trace io_error].
    rewrite Hdoc.
    unfold bind at 1, emit at 1. cbn [stdin documents trace io_error].
    unfold bind at 1, emit at 1. cbn [stdin documents trace io_error].
    unfold bind at 1, lift at 1.
    destruct (run_loop_returns (normalize_lines pages) ("UNKNOWN", []))
      as (st & ->).
    unfold bind at 1, emit at 1. cbn [stdin documents trace io_error].
    destruct (dedup_by_course_code (snd st)) as [deduped dedup_logs].
    unfold bind at 1, emit at 1. cbn [stdin documents trace io_error].
    unfold bind at 1, emit at 1. cbn [stdin documents trace io_error].
    unfold bind at 1, lift at 1.
    rewrite compute_cgpa_returns.
    unfold bind at 1, input at 1. cbn [stdin documents trace io_error].
    rewrite <- !app_assoc. cbn [app].
    exact (HP deduped dedup_logs). }
  split.
  - intros e He. apply Hrun. intros deduped dedup_logs.
    unfold bind at 1, lift at 1. rewrite He. reflexivity.
  - intros g Hg. apply Hrun. intros deduped dedup_logs.
    unfold bind at 1, lift at 1. rewrite Hg.
    unfold bind at 1, emit at 1. cbn [stdin documents trace io_error].
    unfold bind at 1, lift at 1.
    destruct (compute_goal_strategy_returns
                (py_round (included_total_gp deduped) 3)
                (py_round (included_total_credits deduped) 1)
                (fl "109.0") g)
      as (gi & ->).
    cbv zeta.
    match goal with
    | |- context [(perform ?a ;;; perform ?b ;;; perform ?c ;;; perform ?d
                   ;;; perform ?e) ?w0] =>
        destruct (outputs_run a b c d e w0) as (n & -> & _ & _)
    end.
    cbn [trace]. do 3 eexists. rewrite <- !app_assoc.
    cbn [app pipeline_events]. reflexivity.
Qed.

Lemma sample_pages :
  exists pages, sample_documents (Py.strip "t.pdf") = Ok pages.
Proof. eexists. reflexivity. Qed.

(** C9, as the code has it: the target is read only after the document has
    been opened and normalization, parsing, deduplication, exclusion and
    aggregation have run.  A target that [float] rejects makes [main] fail at
    that point, with the exception of [float]; a target that [float] accepts
    is passed to the goal projection whatever its value, there being no
    range check. *)
Theorem target_read_after_pipeline
        (w : world) (path target : string) (rest : list (res string))
        (pages : list string) :
  stdin w = Ok path :: Ok target :: rest ->
  documents w (Py.strip path) = Ok pages ->
  (forall e, py_float (Py.strip target) = Raise e ->
     fst (main w) = Raise e
     /\ trace (snd (main w)) = trace w ++ pipeline_events path target)
  /\ (forall g, py_float (Py.strip target) = Ok g ->
        exists s c more,
          trace (snd (main w))
          = trace w ++ pipeline_events path target
              ++ Projected s c (fl "109.0") g :: more).
Proof.
  intros Hin Hdoc.
  destruct (main_run w path target rest pages Hin Hdoc) as [Hbad Hgood].
  split.
  - intros e He. rewrite (Hbad e He). now split.
  - exact Hgood.
Qed.

Lemma target_read_after_pipeline_witness :
  fst (main (session "abc")) = Raise ValueError
  /\ trace (snd (main (session "abc"))) = pipeline_events "t.pdf" "abc".
Proof.
  destruct (target_read_after_pipeline (session "abc") "t.pdf" "abc" []
              (match sample_documents "t.pdf" with
               | Ok p => p
               | Raise _ => []
               end) eq_refl eq_refl) as [H _].
  exact (H ValueError eq_refl).
Defined.

(** C9, counterexample: typing "abc" as target fails only after all five
    core stages have run, and typing "5.0" does not fail at all: the goal
    projection is called with 5.0. *)
Lemma target_checked_at_boundary_fails :
  ~ target_checked_at_boundary (session "abc")
  /\ ~ target_checked_at_boundary (session "5.0").
Proof.
  destruct sample_pages as (pages & Hp).
  split.
  - intros [H _].
    assert (Hnv : ~ valid_target "abc").
    { intros (g & Hg & _). vm_compute in Hg. discriminate Hg. }
    destruct (H "t.pdf" "abc" [] eq_refl Hnv) as [_ Hno].
    apply (Hno Aggregation).
    destruct (main_run (session "abc") "t.pdf" "abc" [] pages eq_refl Hp)
      as [Hbad _].
    rewrite (Hbad ValueError eq_refl). cbn. tauto.
  - intros [_ H].
    destruct (main_run (session "5.0") "t.pdf" "5.0" [] pages eq_refl Hp)
      as [_ Hok].
    destruct (Hok (fl "5.0") eq_refl) as (s & c & more & Ht).
    assert (Hr : Fl.leb (fl "0.00") (fl "5.0") = true
                 /\ Fl.leb (fl "5.0") (fl "4.30") = true).
    { apply (H s c (fl "109.0")). rewrite Ht. cbn [session trace snd app].
      apply in_or_app. right. now left. }
    destruct Hr as [_ Hr]. vm_compute in Hr. discriminate Hr.
Qed.


(** * Further properties *)

(** ** Line normalizer *)

Lemma append_empty_r (s : string) : (s ++ "")%string = s.
Proof. induction s as [|c s IH]; cbn; [reflexivity | now rewrite IH]. Qed.

Lemma append_assoc (a b c : string) :
  ((a ++ b) ++ c)%string = (a ++ (b ++ c))%string.
Proof. induction a as [|x a IH]; cbn; [reflexivity | now rewrite IH]. Qed.

Lemma is_empty_snoc (cur : string) (c : ascii) :
  Py.is_empty (cur ++ String c "") = false.
Proof. destruct cur; reflexivity. Qed.

Lemma split_ws_from_tokens (s cur : string) :
  all_chars not_space cur = true ->
  Forall (fun t => is_token t = true) (Py.split_ws_from cur s).
Proof.
  revert cur. induction s as [|c s IH]; intros cur Hcur; cbn [Py.split_ws_from].
  - destruct (Py.is_empty cur) eqn:E; constructor; [|constructor].
    unfold is_token. now rewrite E, Hcur.
  - destruct (Py.is_space c) eqn:Ec.
    + destruct (Py.is_empty cur) eqn:E.
      * now apply IH.
      * constructor; [|now apply IH]. unfold is_token. now rewrite E, Hcur.
    + apply IH. rewrite all_chars_app, Hcur. cbn. unfold not_space.
      now rewrite Ec.
Qed.

Lemma split_ws_tokens (s : string) :
  Forall (fun t => is_token t = true) (Py.split_ws s).
Proof. now apply split_ws_from_tokens. Qed.

Lemma split_ws_from_run (t cur rest : string) :
  all_chars not_space t = true ->
  Py.split_ws_from cur (t ++ rest) = Py.split_ws_from (cur ++ t) rest.
Proof.
  revert cur. induction t as [|c t IH]; intros cur Ht; cbn [append].
  - now rewrite append_empty_r.
  - cbn [all_chars] in Ht. apply andb_true_iff in Ht. destruct Ht as [Hc Ht].
    unfold not_space in Hc. apply negb_true_iff in Hc.
    cbn [Py.split_ws_from]. rewrite Hc, (IH _ Ht), append_assoc. reflexivity.
Qed.

Lemma is_token_parts (t : string) :
  is_token t = true -> Py.is_empty t = false /\ all_chars not_space t = true.
Proof.
  unfold is_token. rewrite andb_true_iff, negb_true_iff. tauto.
Qed.

(** Splitting the single-space join of tokens gives the tokens back. *)
Lemma split_ws_join (toks : list string) :
  Forall (fun t => is_token t = true) toks ->
  Py.split_ws (Py.join " " toks) = toks.
Proof.
  unfold Py.split_ws, Py.join.
  induction 1 as [|t toks Ht Htoks IH]; [reflexivity|].
  apply is_token_parts in Ht. destruct Ht as [Hne Hns].
  cbn [String.concat]. destruct toks as [|u toks].
  - rewrite <- (append_empty_r t) at 1.
    rewrite (split_ws_from_run _ _ _ Hns). cbn. now rewrite Hne.
  - rewrite (split_ws_from_run _ _ _ Hns). cbn [append Py.split_ws_from].
    change (Py.is_space " ") with true. cbn iota. rewrite Hne.
    now rewrite IH.
Qed.

Lemma normalize_line_fixed (l : string) :
  normalize_line (normalize_line l) = normalize_line l.
Proof.
  unfold normalize_line. now rewrite (split_ws_join _ (split_ws_tokens l)).
Qed.

Lemma not_space_not_newline (c : ascii) :
  not_space c = true -> negb (Ascii.eqb c newline) = true.
Proof.
  unfold not_space. destruct (Ascii.eqb_spec c newline) as [->|_];
    [discriminate | reflexivity].
Qed.

Lemma join_no_newline (toks : list string) :
  Forall (fun t => is_token t = true) toks ->
  all_chars (fun c => negb (Ascii.eqb c newline)) (Py.join " " toks) = true.
Proof.
  unfold Py.join. induction 1 as [|t toks Ht Htoks IH]; [reflexivity|].
  apply is_token_parts in Ht. destruct Ht as [_ Hns].
  pose proof (all_chars_weaken _ _ t not_space_not_newline Hns) as Hnl.
  cbn [String.concat]. destruct toks as [|u toks]; [exact Hnl|].
  rewrite !all_chars_app, Hnl, IH. reflexivity.
Qed.

Lemma split_char_from_none (sep : ascii) (s cur : string) :
  all_chars (fun c => negb (Ascii.eqb c sep)) s = true ->
  Py.split_char_from sep cur s = [(cur ++ s)%string].
Proof.
  revert cur. induction s as [|c s IH]; intros cur; cbn.
  - now rewrite append_empty_r.
  - rewrite andb_true_iff, negb_true_iff. intros [Hc Hs].
    rewrite Hc, (IH _ Hs), append_assoc. reflexivity.
Qed.

(** A normalized, non-empty line read again as a page gives itself. *)
Lemma normalized_line_as_page (x : string) :
  Py.is_empty (normalize_line x) = false ->
  normalize_lines [normalize_line x] = [normalize_line x].
Proof.
  intros Hne. unfold normalize_lines. cbn [flat_map]. rewrite app_nil_r.
  unfold Py.split_char.
  rewrite split_char_from_none
    by (apply join_no_newline, split_ws_tokens).
  cbn [append map filter]. rewrite normalize_line_fixed, Hne. reflexivity.
Qed.

Lemma normalize_lines_members (pages : list string) (l : string) :
  In l (normalize_lines pages) ->
  exists x, l = normalize_line x /\ Py.is_empty l = false.
Proof.
  unfold normalize_lines. intros H.
  apply in_flat_map in H. destruct H as (text & _ & H).
  apply filter_In in H. destruct H as [H Hne].
  apply in_map_iff in H. destruct H as (x & <- & _).
  exists x. split; [reflexivity | now apply negb_true_iff].
Qed.

Lemma normalize_lines_app (a b : list string) :
  normalize_lines (a ++ b) = normalize_lines a ++ normalize_lines b.
Proof. unfold normalize_lines. apply flat_map_app. Qed.

(** X1: every line produced by [normalize_lines] has at least one token and
    is exactly its tokens joined by single spaces, so it has no newline, no
    leading or trailing whitespace and no run of whitespace; normalizing the
    output again, each line taken as a page, changes nothing. *)
Theorem normalize_lines_idempotent (pages : list string) :
  (forall l, In l (normalize_lines pages) ->
     Py.split_ws l <> [] /\ l = Py.join " " (Py.split_ws l))
  /\ normalize_lines (normalize_lines pages) = normalize_lines pages.
Proof.
  split.
  - intros l Hl. apply normalize_lines_members in Hl.
    destruct Hl as (x & -> & Hne). split.
    + intros E. unfold normalize_line in E, Hne.
      rewrite (split_ws_join _ (split_ws_tokens x)) in E.
      rewrite E in Hne. discriminate Hne.
    + symmetry. apply normalize_line_fixed.
  - pose proof (normalize_lines_members pages) as Hm.
    induction (normalize_lines pages) as [|l out IH]; [reflexivity|].
    change (l :: out) with ([l] ++ out).
    rewrite normalize_lines_app, IH by (intros y Hy; apply Hm; now right).
    destruct (Hm l (or_introl eq_refl)) as (x & -> & Hne).
    now rewrite (normalized_line_as_page x Hne).
Qed.

(** X2: the parser reads a line through its tokens only, so it returns the
    same on a line and on its normalized form. *)
Theorem parse_course_from_line_normalized (line sec : string) :
  parse_course_from_line (normalize_line line) sec
  = parse_course_from_line line sec.
Proof.
  unfold parse_course_from_line, normalize_line.
  now rewrite (split_ws_join _ (split_ws_tokens line)).
Qed.

(** ** Line parser: which lines give a record, and what the record holds *)

Lemma find_credit_idx_none (l : list string) (i : nat) :
  find_credit_idx i l = None <-> existsb CREDIT_RE l = false.
Proof.
  revert i. induction l as [|t l IH]; intros i; cbn; [tauto|].
  destruct (CREDIT_RE t); cbn; [split; discriminate | apply IH].
Qed.

(** The tokens after the credits token. *)
Lemma parse_inv (line sec : string) (r : CourseRecord) :
  parse_course_from_line line sec = Ok (Some r) ->
  exists code after idx,
    Py.split_ws line = code :: after
    /\ COURSE_CODE_RE code = true
    /\ find_credit_idx 1 after = Some idx
    /\ py_float (nth (idx - 1) after "") = Ok (credits r)
    /\ course_code r = code
    /\ section r = sec
    /\ duplicate r = fst (strip_duplicate (skipn idx after))
    /\ year_sem r
       = fst (strip_term (snd (strip_duplicate (skipn idx after))))
    /\ result r
       = first_or_empty
           (snd (strip_term (snd (strip_duplicate (skipn idx after))))).
Proof.
  unfold parse_course_from_line.
  destruct (Py.split_ws line) as [|code after]; [discriminate|].
  destruct (COURSE_CODE_RE code) eqn:Ec; cbn [negb]; [|discriminate].
  destruct (find_credit_idx 1 after) as [idx|] eqn:Ef; [|discriminate].
  pose proof (find_credit_idx_spec _ _ _ Ef) as [Hle _].
  assert (En : nth idx (code :: after) "" = nth (idx - 1) after "").
  { destruct idx as [|idx]; [lia|].
    replace (S idx - 1)%nat with idx by lia. reflexivity. }
  assert (Es : skipn (idx + 1) (code :: after) = skipn idx after).
  { replace (idx + 1)%nat with (S idx) by lia. reflexivity. }
  rewrite En, Es.
  destruct (py_float (nth (idx - 1) after "")) as [q|e] eqn:Eq;
    cbn [res_bind]; [|discriminate].
  destruct (strip_duplicate (skipn idx after)) as [dup rest1] eqn:Ed.
  destruct (strip_term rest1) as [ys rest2] eqn:Et.
  destruct (classify_result (first_or_empty rest2)) as [st gp].
  intros [= <-]. exists code, after, idx.
  cbn [course_code section credits duplicate year_sem result].
  rewrite Ed. cbn [fst snd]. rewrite Et. cbn [fst snd].
  repeat split; try reflexivity; assumption.
Qed.

(** X3: [parse_course_from_line] never raises, and it returns a record
    exactly when the line has a first token accepted by [COURSE_CODE_RE]
    and, after it, a token accepted by [CREDIT_RE]; every other line gives
    [None]. *)
Theorem parse_course_from_line_some_iff (line sec : string) :
  (parse_course_from_line line sec = Ok None
   \/ exists r, parse_course_from_line line sec = Ok (Some r))
  /\ ((exists r, parse_course_from_line line sec = Ok (Some r))
      <-> exists code after,
            Py.split_ws line = code :: after
            /\ COURSE_CODE_RE code = true
            /\ existsb CREDIT_RE after = true).
Proof.
  split.
  - destruct (parse_course_from_line_returns line sec) as ([r|] & H);
      [right; now exists r | now left].
  - split.
    + intros (r & H). apply parse_inv in H.
      destruct H as (code & after & idx & Ht & Hc & Hf & _).
      exists code, after. split; [exact Ht|]. split; [exact Hc|].
      destruct (existsb CREDIT_RE after) eqn:E; [reflexivity|].
      apply (find_credit_idx_none after 1) in E. congruence.
    + intros (code & after & Ht & Hc & He).
      destruct (parse_course_from_line_returns line sec) as ([r|] & H);
        [now exists r|].
      exfalso. revert H. unfold parse_course_from_line.
      rewrite Ht, Hc. cbn [negb].
      destruct (find_credit_idx 1 after) as [idx|] eqn:Ef.
      * destruct (py_float _); cbn [res_bind]; [|discriminate].
        destruct (strip_duplicate _) as [dup rest1].
        destruct (strip_term rest1) as [ys rest2].
        destruct (classify_result _). discriminate.
      * apply find_credit_idx_none in Ef. congruence.
Qed.

Lemma find_credit_idx_split (l : list string) (i idx : nat) :
  find_credit_idx i l = Some idx ->
  exists title credit rest,
    l = title ++ credit :: rest
    /\ idx = (i + length title)%nat
    /\ forallb (fun t => negb (CREDIT_RE t)) title = true
    /\ CREDIT_RE credit = true.
Proof.
  revert i. induction l as [|t l IH]; intros i; cbn [find_credit_idx];
    [discriminate|].
  destruct (CREDIT_RE t) eqn:E.
  - intros [= <-]. exists [], t, l. cbn. repeat split; [lia | exact E].
  - intros H. destruct (IH _ H) as (title & credit & rest & -> & -> & Ht & Hc).
    exists (t :: title), credit, rest. cbn [app length forallb].
    rewrite E, Ht. repeat split; [lia | exact Hc].
Qed.

(** A record comes from a line of tokens [code], title, credits, rest, the
    credits token being the first token after the code that [CREDIT_RE]
    accepts. *)
Lemma parse_inv_tokens (line sec : string) (r : CourseRecord) :
  parse_course_from_line line sec = Ok (Some r) ->
  exists code title credit rest,
    Py.split_ws line = code :: title ++ credit :: rest
    /\ COURSE_CODE_RE code = true
    /\ forallb (fun t => negb (CREDIT_RE t)) title = true
    /\ CREDIT_RE credit = true
    /\ py_float credit = Ok (credits r)
    /\ course_code r = code
    /\ course_title r = Py.strip (Py.join " " title)
    /\ section r = sec
    /\ duplicate r = fst (strip_duplicate rest)
    /\ year_sem r = fst (strip_term (snd (strip_duplicate rest)))
    /\ result r
       = first_or_empty (snd (strip_term (snd (strip_duplicate rest)))).
Proof.
  unfold parse_course_from_line.
  destruct (Py.split_ws line) as [|code after]; [discriminate|].
  destruct (COURSE_CODE_RE code) eqn:Ec; cbn [negb]; [|discriminate].
  destruct (find_credit_idx 1 after) as [idx|] eqn:Ef; [|discriminate].
  destruct (find_credit_idx_split _ _ _ Ef)
    as (title & credit & rest & -> & -> & Ht & Hc).
  assert (Enth : nth (1 + length title) (code :: title ++ credit :: rest) ""
                 = credit).
  { cbn [Nat.add nth]. rewrite app_nth2 by lia. now rewrite Nat.sub_diag. }
  assert (Erest : skipn (1 + length title + 1)
                    (code :: title ++ credit :: rest) = rest).
  { replace (1 + length title + 1)%nat with (S (length title + 1)) by lia.
    cbn [skipn]. rewrite skipn_app, skipn_all2 by lia.
    replace (length title + 1 - length title)%nat with 1%nat by lia.
    reflexivity. }
  assert (Etitle : firstn (1 + length title - 1)
                     (skipn 1 (code :: title ++ credit :: rest)) = title).
  { replace (1 + length title - 1)%nat with (length title + 0)%nat by lia.
    cbn [skipn]. rewrite firstn_app_2. cbn. apply app_nil_r. }
  rewrite Enth, Erest, Etitle.
  destruct (py_float credit) as [q|e] eqn:Eq; cbn [res_bind]; [|discriminate].
  destruct (strip_duplicate rest) as [dup rest1] eqn:Ed.
  destruct (strip_term rest1) as [ys rest2] eqn:Et.
  destruct (classify_result (first_or_empty rest2)) as [st gp].
  intros [= <-]. exists code, title, credit, rest.
  cbn [course_code course_title section credits duplicate year_sem result].
  rewrite Ed. cbn [fst snd]. rewrite Et. cbn [fst snd].
  repeat split; try reflexivity; assumption.
Qed.

Lemma last_tok_snoc (l : list string) (t : string) : last_tok (l ++ [t]) = t.
Proof. unfold last_tok. apply last_last. Qed.

Lemma nonempty_snoc_inv {A} (l : list A) :
  nonempty l = true -> exists l' a, l = l' ++ [a].
Proof.
  intros H. destruct (exists_last (l := l)) as (l' & a & E).
  - intros ->. discriminate H.
  - now exists l', a.
Qed.

(** X4: in a record returned by the parser, [course_code] is the first
    token of the line and is accepted by [COURSE_CODE_RE], [section] is the
    section passed in, and [duplicate] is true exactly when the last token
    of the line is "Y". *)
Theorem parsed_record_identity (line sec : string) (r : CourseRecord) :
  parse_course_from_line line sec = Ok (Some r) ->
  hd "" (Py.split_ws line) = course_code r
  /\ COURSE_CODE_RE (course_code r) = true
  /\ section r = sec
  /\ (duplicate r = true <-> last_tok (Py.split_ws line) = "Y").
Proof.
  intros H. apply parse_inv_tokens in H.
  destruct H as (code & title & credit & rest & Ht & Hc & _ & Hcr & _
                 & -> & _ & -> & -> & _).
  rewrite Ht. cbn [hd]. split; [reflexivity|]. split; [exact Hc|].
  split; [reflexivity|].
  unfold strip_duplicate. destruct (nonempty rest) eqn:En.
  - apply nonempty_snoc_inv in En. destruct En as (rest' & z & ->).
    replace (code :: title ++ credit :: rest' ++ [z])
      with ((code :: title ++ credit :: rest') ++ [z])
      by (cbn; now rewrite <- app_assoc).
    rewrite !last_tok_snoc. cbn [andb].
    destruct (String.eqb_spec z "Y") as [->|Hne]; cbn [fst]; split;
      congruence.
  - destruct rest; [|discriminate En]. cbn [andb fst].
    replace (code :: title ++ [credit]) with ((code :: title) ++ [credit])
      by reflexivity.
    rewrite last_tok_snoc. split; [discriminate|].
    intros ->. discriminate Hcr.
Qed.

Lemma parsed_record_identity_witness :
  exists r,
    parse_course_from_line "AMA1100 Calculus 3.0 B+ Y" "GUR" = Ok (Some r)
    /\ course_code r = "AMA1100" /\ duplicate r = true.
Proof.
  eexists. split; [reflexivity|].
  destruct (parsed_record_identity "AMA1100 Calculus 3.0 B+ Y" "GUR" _ eq_refl)
    as (Hc & _ & _ & Hd).
  split; [symmetry; exact Hc | apply Hd; reflexivity].
Defined.

Lemma lit_char (c : ascii) (s r : string) :
  In r (Re.lit (String c "") s) -> s = String c r.
Proof.
  unfold Re.lit. destruct s as [|x s]; cbn [Py.startswith In]; [intros []|].
  destruct (Ascii.eqb_spec c x) as [<-|_];
    cbn [andb In Py.drop String.length]; [|intros []].
  now intros [<-|[]].
Qed.

Lemma one_or_two (c : ascii) :
  Py.between 49 50 c = true -> c = "1"%char \/ c = "2"%char.
Proof.
  destruct c as [b0 b1 b2 b3 b4 b5 b6 b7].
  destruct b0, b1, b2, b3, b4, b5, b6, b7; vm_compute; intros H;
    try discriminate H; tauto.
Qed.

(** The shape of a string accepted by [SEM_RE]. *)
Lemma SEM_RE_shape (t : string) :
  SEM_RE t = true ->
  exists y s tail,
    t = (y ++ String "/" (String s tail))%string
    /\ String.length y = 4%nat /\ all_chars Py.is_digit y = true
    /\ (s = "1"%char \/ s = "2"%char)
    /\ (tail = ""%string \/ tail = String newline "").
Proof.
  unfold SEM_RE, Re.matches, Re.seq. intros H.
  apply existsb_exists in H. destruct H as (r3 & Hin & Hend).
  apply in_flat_map in Hin. destruct Hin as (r1 & H1 & Hin).
  apply in_flat_map in Hin. destruct Hin as (r2 & H2 & H3).
  apply rep_spec in H1. destruct H1 as (y & -> & Hy & Hlen).
  apply lit_char in H2. subst r1.
  apply rep_spec in H3. destruct H3 as (one & -> & Hone & Hlen1).
  destruct one as [|s [|? ?]]; cbn in Hlen1; try lia.
  cbn [all_chars] in Hone. rewrite andb_true_r in Hone.
  exists y, s, r3. split; [reflexivity|]. split; [lia|].
  split; [exact Hy|]. split; [now apply one_or_two|].
  unfold Re.at_end in Hend. apply orb_true_iff in Hend.
  destruct Hend as [E|E]; apply String.eqb_eq in E; tauto.
Qed.

Lemma strip_duplicate_incl (rest : list string) (t : string) :
  In t (snd (strip_duplicate rest)) -> In t rest.
Proof.
  destruct (strip_duplicate_spec rest) as [(pre & -> & ->)|(_ & ->)];
    cbn [snd]; [|tauto].
  intros H. apply in_or_app. now left.
Qed.

(** X5: in a record returned by the parser, [year_sem] is empty or is a
    token of the line made of four digits, a slash and the digit 1 or 2,
    and nothing else. *)
Theorem parsed_record_year_sem (line sec : string) (r : CourseRecord) :
  parse_course_from_line line sec = Ok (Some r) ->
  year_sem r = ""
  \/ (In (year_sem r) (Py.split_ws line)
      /\ exists y s,
           year_sem r = (y ++ String "/" (String s ""))%string
           /\ String.length y = 4%nat
           /\ all_chars Py.is_digit y = true
           /\ (s = "1"%char \/ s = "2"%char)).
Proof.
  intros H. apply parse_inv_tokens in H.
  destruct H as (code & title & credit & rest & Ht & _ & _ & _ & _
                 & _ & _ & _ & _ & -> & _).
  destruct (strip_term_spec (snd (strip_duplicate rest)))
    as [(pre & t & Hr & Hm & ->)|(_ & ->)]; cbn [fst]; [|now left].
  right.
  assert (Hin : In t (Py.split_ws line)).
  { rewrite Ht. right. apply in_or_app. right. right.
    apply strip_duplicate_incl. rewrite Hr. apply in_or_app. right. now left. }
  split; [exact Hin|].
  pose proof (split_ws_tokens line) as Htok.
  rewrite Forall_forall in Htok. specialize (Htok t Hin).
  apply is_token_parts in Htok. destruct Htok as [_ Hns].
  destruct (SEM_RE_shape t Hm) as (y & s & tail & -> & Hy & Hd & Hs & Htail).
  exists y, s. destruct Htail as [->| ->]; [now repeat split|].
  exfalso. rewrite all_chars_app in Hns. cbn [all_chars] in Hns.
  apply andb_true_iff in Hns. destruct Hns as [_ Hns].
  apply andb_true_iff in Hns. destruct Hns as [_ Hns].
  apply andb_true_iff in Hns. destruct Hns as [_ Hns].
  discriminate Hns.
Qed.

Lemma parsed_record_year_sem_witness :
  exists r,
    parse_course_from_line "COMP1234 Intro to Computing 3.0 A- 2023/1" "GUR"
      = Ok (Some r)
    /\ year_sem r = "2023/1".
Proof.
  eexists. split; [reflexivity|].
  destruct (parsed_record_year_sem
              "COMP1234 Intro to Computing 3.0 A- 2023/1" "GUR" _ eq_refl)
    as [H|(_ & y & s & H & _)]; [discriminate H | reflexivity].
Defined.

Lemma grade_points_in_range (g : string) (p : float) :
  In (g, p) GRADE_TO_POINT ->
  Fl.leb (fl "0.0") p = true /\ Fl.leb p (fl "4.3") = true.
Proof.
  unfold GRADE_TO_POINT. cbn [In].
  intros H.
  repeat (destruct H as [H|H];
          [injection H as _ <-; split; vm_compute; reflexivity|]).
  contradiction.
Qed.

Lemma leb_zero_sign (x : float) :
  has_sign false x -> Fl.leb Fl.zero x = true.
Proof.
  destruct x as [s|s| |s m e]; cbn [has_sign]; intros H;
    [reflexivity | subst s; reflexivity | contradiction
    | subst s; reflexivity].
Qed.

(** Numbers and status of a parsed record. *)
Lemma parsed_numbers (line sec : string) (r : CourseRecord) :
  parse_course_from_line line sec = Ok (Some r) ->
  (exists n : N, credits r = Fl.of_decimal false n (-1))
  /\ In (status r) ["included"; "excluded"; "unknown"]
  /\ (forall g, grade_point r = Some g ->
        In (result r, g) GRADE_TO_POINT
        /\ Fl.leb (fl "0.0") g = true /\ Fl.leb g (fl "4.3") = true).
Proof.
  intros H. pose proof (parse_classified _ _ _ H) as Hc.
  apply parse_inv_tokens in H.
  destruct H as (code & title & credit & rest & _ & _ & _ & Hcr & Hf & _).
  split.
  - destruct (py_float_credit_value _ Hcr) as (n & E).
    exists n. congruence.
  - destruct (classify_result_cases (result r))
      as [(p & Hp & E)|(_ & [E|E])]; rewrite E in Hc;
      injection Hc as <- <-.
    + split; [cbn; tauto|]. intros g [= <-].
      apply lookup_Some_In in Hp. split; [exact Hp|].
      exact (grade_points_in_range _ _ Hp).
    + split; [cbn; tauto | discriminate].
    + split; [cbn; tauto | discriminate].
Qed.

(** X6: in a record returned by the parser, [credits] is the double nearest
    to a natural number of tenths (an infinity when that number is too large
    for a double), so it is not NaN and [0 <= credits] holds; [status] is one
    of the three status strings; and a grade point, when present, is the
    table value of [result] and lies between 0.0 and 4.3. *)
Theorem parsed_record_numbers (line sec : string) (r : CourseRecord) :
  parse_course_from_line line sec = Ok (Some r) ->
  (exists n : N, credits r = Fl.of_decimal false n (-1))
  /\ Fl.leb Fl.zero (credits r) = true
  /\ In (status r) ["included"; "excluded"; "unknown"]
  /\ (forall g, grade_point r = Some g ->
        In (result r, g) GRADE_TO_POINT
        /\ Fl.leb (fl "0.0") g = true /\ Fl.leb g (fl "4.3") = true).
Proof.
  intros H. destruct (parsed_numbers line sec r H) as ((n & E) & Hs & Hg).
  split; [exists n; exact E|].
  split; [rewrite E; apply leb_zero_sign, of_decimal_sign|].
  split; [exact Hs | exact Hg].
Qed.

Lemma parsed_record_numbers_witness :
  exists r,
    parse_course_from_line "COMP1234 Intro to Computing 3.0 A- 2023/1" "GUR"
      = Ok (Some r)
    /\ credits r = fl "3.0"
    /\ Fl.leb Fl.zero (credits r) = true.
Proof.
  eexists. split; [vm_compute; reflexivity|].
  destruct (parsed_record_numbers
              "COMP1234 Intro to Computing 3.0 A- 2023/1" "GUR" _
              ltac:(vm_compute; reflexivity))
    as (_ & H2 & _).
  split; [vm_compute; reflexivity | exact H2].
Defined.

(** ** Deduplicator: fixed points, order of the output, preference *)

Lemma dedup_final_inv (records : list CourseRecord) :
  dedup_inv records (fold_left dedup_step records ([], [])).
Proof. exact (dedup_inv_fold records [] ([], []) dedup_inv_init). Qed.

Lemma dedup_fold_distinct (l : list CourseRecord)
      (chosen : list (string * CourseRecord)) (logs : list DedupLog) :
  NoDup (map course_code l) ->
  (forall r, In r l -> ~ In (course_code r) (map fst chosen)) ->
  fold_left dedup_step l (chosen, logs)
  = (chosen ++ map (fun r => (course_code r, r)) l, logs).
Proof.
  revert chosen. induction l as [|r l IH]; intros chosen Hnd Hfresh;
    cbn [fold_left map].
  - now rewrite app_nil_r.
  - cbn [map] in Hnd. inversion Hnd as [|? ? Hr Hnd']; subst.
    assert (El : Py.lookup (course_code r) chosen = None).
    { apply lookup_None_keys. apply Hfresh. now left. }
    unfold dedup_step at 2. rewrite El, (dict_set_fresh _ _ _ El).
    rewrite IH.
    + now rewrite <- app_assoc.
    + exact Hnd'.
    + intros x Hx. rewrite map_app. cbn [map fst]. intros K.
      apply in_app_or in K. destruct K as [K|[K|[]]].
      * apply (Hfresh x); [now right | exact K].
      * apply Hr. rewrite K. now apply in_map.
Qed.

Lemma dedup_distinct (l : list CourseRecord) :
  NoDup (map course_code l) -> dedup_by_course_code l = (l, []).
Proof.
  intros H. unfold dedup_by_course_code.
  rewrite (dedup_fold_distinct l [] [] H) by (intros ? _ []).
  cbn [app]. rewrite map_map. cbn [snd]. now rewrite map_id.
Qed.

Lemma dedup_kept_distinct (records : list CourseRecord) :
  NoDup (map course_code (fst (dedup_by_course_code records))).
Proof.
  pose proof (dedup_final_inv records) as H. unfold dedup_by_course_code.
  destruct (fold_left dedup_step records ([], [])) as [chosen logs].
  destruct H as (Hnd & Hkey & _). cbn [fst snd] in *.
  now rewrite (keys_of_kept _ Hkey).
Qed.

(** X7: a list whose course codes are pairwise distinct is returned
    unchanged with an empty log; hence deduplicating the output of
    [dedup_by_course_code] again returns it unchanged and logs nothing. *)
Theorem dedup_by_course_code_idempotent (records : list CourseRecord) :
  (NoDup (map course_code records) ->
   dedup_by_course_code records = (records, []))
  /\ dedup_by_course_code (fst (dedup_by_course_code records))
     = (fst (dedup_by_course_code records), []).
Proof.
  split; [apply dedup_distinct|].
  apply dedup_distinct, dedup_kept_distinct.
Qed.

Lemma dedup_by_course_code_idempotent_witness :
  dedup_by_course_code two_graded = (two_graded, []).
Proof.
  apply (proj1 (dedup_by_course_code_idempotent two_graded)).
  repeat constructor; cbn; intuition discriminate.
Defined.

Lemma first_occurrences_In (l : list string) (x : string) :
  In x (first_occurrences l) <-> In x l.
Proof.
  induction l as [|a l IH]; cbn [first_occurrences In]; [tauto|].
  rewrite filter_In, IH, negb_true_iff.
  destruct (String.eqb_spec x a) as [->|Hne]; [tauto|].
  split; [tauto|]. intros [E|H]; [congruence | right; now split].
Qed.

Lemma first_occurrences_snoc (l : list string) (x : string) :
  first_occurrences (l ++ [x])
  = if Py.mem x l then first_occurrences l else first_occurrences l ++ [x].
Proof.
  induction l as [|a l IH]; [reflexivity|].
  cbn [app first_occurrences]. rewrite IH.
  unfold Py.mem. cbn [existsb]. fold (Py.mem x l).
  destruct (Py.mem x l).
  - now rewrite orb_true_r.
  - rewrite orb_false_r, filter_app. cbn [filter].
    destruct (String.eqb x a); cbn [negb orb app];
      [now rewrite app_nil_r | reflexivity].
Qed.

Lemma dedup_step_keys (st : dedup_state) (r : CourseRecord) :
  map fst (fst (dedup_step st r))
  = if Py.mem (course_code r) (map fst (fst st))
    then map fst (fst st)
    else map fst (fst st) ++ [course_code r].
Proof.
  destruct st as [chosen logs]. cbn [fst]. unfold dedup_step.
  destruct (Py.lookup (course_code r) chosen) as [c|] eqn:El.
  - assert (Hm : Py.mem (course_code r) (map fst chosen) = true).
    { apply mem_In. apply lookup_Some_In in El.
      change (course_code r) with (fst (course_code r, c)). now apply in_map. }
    rewrite Hm.
    destruct (tuple_gt (score r) (score c)); [|reflexivity]. cbn [fst].
    destruct (dict_set_present (course_code r) r c chosen El)
      as (d1 & d2 & -> & ->).
    now rewrite !map_app.
  - assert (Hm : Py.mem (course_code r) (map fst chosen) = false).
    { destruct (Py.mem (course_code r) (map fst chosen)) eqn:E;
        [|reflexivity].
      apply mem_In in E. now apply lookup_None_keys in El. }
    rewrite Hm, (dict_set_fresh _ _ _ El). cbn [fst].
    now rewrite map_app.
Qed.

Lemma dedup_step_count (st : dedup_state) (r : CourseRecord) :
  (length (fst (dedup_step st r)) + length (snd (dedup_step st r))
   = S (length (fst st) + length (snd st)))%nat.
Proof.
  destruct st as [chosen logs]. cbn [fst snd]. unfold dedup_step.
  destruct (Py.lookup (course_code r) chosen) as [c|] eqn:El.
  - destruct (tuple_gt (score r) (score c)); cbn [fst snd].
    + destruct (dict_set_present (course_code r) r c chosen El)
        as (d1 & d2 & -> & ->).
      rewrite !length_app. cbn [length]. lia.
    + rewrite length_app. cbn [length]. lia.
  - rewrite (dict_set_fresh _ _ _ El). cbn [fst snd].
    rewrite length_app. cbn [length]. lia.
Qed.

Lemma mem_first_occurrences (l : list string) (x : string) :
  Py.mem x (first_occurrences l) = Py.mem x l.
Proof.
  destruct (Py.mem x l) eqn:E.
  - apply mem_In. apply first_occurrences_In. now apply mem_In.
  - destruct (Py.mem x (first_occurrences l)) eqn:F; [|reflexivity].
    apply (proj1 (mem_In _ _)) in F.
    apply (proj1 (first_occurrences_In _ _)) in F.
    apply (proj2 (mem_In _ _)) in F. congruence.
Qed.

(** X8: the kept records come in the order in which their course codes
    first occur in the input, and every input record is either kept or
    logged once: the kept records and the log entries together are as many as
    the input records. *)
Theorem dedup_by_course_code_order (records : list CourseRecord) :
  map course_code (fst (dedup_by_course_code records))
  = first_occurrences (map course_code records)
  /\ (length (fst (dedup_by_course_code records))
      + length (snd (dedup_by_course_code records))
      = length records)%nat.
Proof.
  assert (Hfold : forall l,
    map fst (fst (fold_left dedup_step l ([], [])))
    = first_occurrences (map course_code l)
    /\ (length (fst (fold_left dedup_step l ([], [])))
        + length (snd (fold_left dedup_step l ([], []))) = length l)%nat).
  { induction l as [|r l [IHk IHc]] using rev_ind; [now split|].
    rewrite fold_left_app. cbn [fold_left]. split.
    - rewrite dedup_step_keys, IHk, map_app. cbn [map].
      now rewrite first_occurrences_snoc, mem_first_occurrences.
    - rewrite dedup_step_count, IHc, length_app. cbn [length]. lia. }
  pose proof (dedup_final_inv records) as Hinv.
  destruct (Hfold records) as [Hk Hc].
  unfold dedup_by_course_code.
  destruct (fold_left dedup_step records ([], [])) as [chosen logs].
  destruct Hinv as (_ & Hkey & _). cbn [fst snd] in *.
  rewrite (keys_of_kept _ Hkey), length_map. now split.
Qed.

Lemma score_included (r : CourseRecord) :
  fst (score r) = 2%nat <-> status r = "included".
Proof.
  unfold score. cbn [fst].
  destruct (String.eqb_spec (status r) "included") as [E|Hne].
  - tauto.
  - destruct (String.eqb (status r) "excluded"); split;
      try discriminate; contradiction.
Qed.

Lemma score_fst_le_2 (r : CourseRecord) : (fst (score r) <= 2)%nat.
Proof.
  unfold score. cbn [fst].
  destruct (String.eqb (status r) "included"); [lia|].
  destruct (String.eqb (status r) "excluded"); lia.
Qed.

(** X9: a record that counts is never displaced by one that does not: if
    some input record has status "included", the record kept for its course
    code has status "included" too. *)
Theorem dedup_by_course_code_keeps_included
        (records : list CourseRecord) (x : CourseRecord) :
  In x records -> status x = "included" ->
  exists k, In k (fst (dedup_by_course_code records))
            /\ course_code k = course_code x
            /\ status k = "included".
Proof.
  intros Hx Hs. pose proof (dedup_final_inv records) as Hinv.
  unfold dedup_by_course_code.
  destruct (fold_left dedup_step records ([], [])) as [chosen logs].
  destruct Hinv as (_ & Hkey & Hcov & Hbest & _). cbn [fst snd] in *.
  specialize (Hcov x Hx). apply in_map_iff in Hcov.
  destruct Hcov as ([k c] & Ek & Hin). cbn [fst] in Ek. subst k.
  rewrite Forall_forall in Hkey. pose proof (Hkey _ Hin) as Hcc.
  cbn [fst snd] in Hcc.
  exists c. split; [apply in_map_iff; now exists (course_code x, c)|].
  split; [exact Hcc|].
  pose proof (leftmost_best_same_code records c x (Hbest _ Hin) Hx
                (eq_sym Hcc)) as Hle.
  unfold score_le in Hle. apply tuple_gt_false in Hle.
  apply score_included in Hs. apply score_included.
  pose proof (score_fst_le_2 c). lia.
Qed.

Lemma dedup_by_course_code_keeps_included_witness :
  exists k, In k (fst (dedup_by_course_code retake_pair))
            /\ course_code k = "APSS1BN04" /\ status k = "included".
Proof.
  apply (dedup_by_course_code_keeps_included retake_pair graded_row).
  - right. now left.
  - reflexivity.
Defined.

Lemma log_sound_snoc (p : list CourseRecord) (r : CourseRecord) (e : DedupLog) :
  log_sound p e -> log_sound (p ++ [r]) e.
Proof.
  intros (d & k & Hd & Hk & H). exists d, k.
  split; [apply in_or_app; now left|].
  split; [apply in_or_app; now left | exact H].
Qed.

Lemma dedup_step_logs_sound (p : list CourseRecord) (st : dedup_state)
      (r : CourseRecord) :
  dedup_inv p st -> Forall (log_sound p) (snd st) ->
  Forall (log_sound (p ++ [r])) (snd (dedup_step st r)).
Proof.
  destruct st as [chosen logs].
  intros (_ & Hkey & _ & Hbest & _) Hlogs. cbn [fst snd] in *.
  assert (Hold : Forall (log_sound (p ++ [r])) logs).
  { eapply Forall_impl; [|exact Hlogs]. intros e. apply log_sound_snoc. }
  unfold dedup_step.
  destruct (Py.lookup (course_code r) chosen) as [c|] eqn:El; [|exact Hold].
  pose proof (lookup_Some_In _ _ _ El) as Hin.
  assert (Hcc : course_code c = course_code r).
  { rewrite Forall_forall in Hkey. exact (Hkey _ Hin). }
  assert (Hc : In c (p ++ [r])).
  { destruct (Hbest _ Hin) as (before & after & -> & _). cbn [snd].
    apply in_or_app. left. apply in_or_app. right. now left. }
  assert (Hr : In r (p ++ [r])) by (apply in_or_app; right; now left).
  destruct (tuple_gt (score r) (score c)) eqn:Eg; cbn [snd];
    apply Forall_app; (split; [exact Hold|]); constructor;
    try constructor.
  - exists c, r. cbn. repeat split; try assumption; try reflexivity.
    + now symmetry.
    + left. now split.
  - exists r, c. cbn. repeat split; try assumption; try reflexivity.
    right. now split.
Qed.

Lemma dedup_fold_logs_sound (l p : list CourseRecord) (st : dedup_state) :
  dedup_inv p st -> Forall (log_sound p) (snd st) ->
  Forall (log_sound (p ++ l)) (snd (fold_left dedup_step l st)).
Proof.
  revert p st. induction l as [|r l IH]; intros p st Hi Hl; cbn [fold_left].
  - now rewrite app_nil_r.
  - replace (p ++ r :: l) with ((p ++ [r]) ++ l)
      by (now rewrite <- app_assoc).
    apply IH; [now apply dedup_inv_step | now apply dedup_step_logs_sound].
Qed.

(** X20: every entry of the deduplication log names, by course code and
    section, two input records with the same course code: the record dropped
    at that step and the record kept at that step.  With the reason
    "replaced" the dropped record has a strictly lower priority tuple than
    the kept one, with the reason "dropped" a priority tuple that is not
    higher; no other reason is logged. *)
Theorem dedup_logs_sound (records : list CourseRecord) :
  Forall (log_sound records) (snd (dedup_by_course_code records)).
Proof.
  pose proof (dedup_fold_logs_sound records [] ([], []) dedup_inv_init
                (Forall_nil _)) as H.
  cbn [app] in H. unfold dedup_by_course_code.
  destruct (fold_left dedup_step records ([], [])) as [chosen logs].
  exact H.
Qed.
(** ** The loop of the orchestrator *)

(** The records the loop adds come from its lines, each parsed under the
    section in effect once its own line has been examined. *)
Lemma run_loop_records (lines : list string) (sec0 : string)
      (recs0 : list CourseRecord) (st : string * list CourseRecord) :
  run_loop lines (sec0, recs0) = Ok st ->
  exists new,
    snd st = recs0 ++ new
    /\ (length new <= length lines)%nat
    /\ forall r, In r new ->
         exists n, (n < length lines)%nat
                   /\ parse_course_from_line (nth n lines "")
                        (section_after (firstn (S n) lines) sec0)
                      = Ok (Some r).
Proof.
  revert sec0 recs0. induction lines as [|l lines IH]; intros sec0 recs0;
    cbn [run_loop].
  - intros [= <-]. exists []. cbn. rewrite app_nil_r.
    repeat split; [lia | intros ? []].
  - unfold loop_step.
    destruct (parse_course_from_line l (detect_section l sec0)) as [o|e] eqn:Ep;
      cbn [res_bind]; [|discriminate].
    intros H. destruct (IH _ _ H) as (new & Hs & Hlen & Hnew).
    assert (Hshift : forall r, In r new ->
      exists n, (n < length (l :: lines))%nat
                /\ parse_course_from_line (nth n (l :: lines) "")
                     (section_after (firstn (S n) (l :: lines)) sec0)
                   = Ok (Some r)).
    { intros r Hr. destruct (Hnew r Hr) as (n & Hn & Hp).
      exists (S n). split; [cbn; lia | exact Hp]. }
    destruct o as [r0|].
    + exists (r0 :: new). split; [now rewrite Hs, <- app_assoc|].
      split; [cbn; lia|].
      intros r [<-|Hr]; [|now apply Hshift].
      exists 0%nat. split; [cbn; lia | exact Ep].
    + exists new. split; [exact Hs|]. split; [cbn; lia | exact Hshift].
Qed.

(** X11: the loop of [main] returns for every sequence of lines; it adds at
    most one record per line, and every record it adds is what the parser
    returns for one of the lines under the section obtained by running the
    section tracker over the lines up to and including that line, so a header
    and a course row on one line tag the row with the new section. *)
Theorem run_loop_tags_with_current_section (lines : list string) :
  exists sec recs,
    run_loop lines ("UNKNOWN", []) = Ok (sec, recs)
    /\ sec = section_after lines "UNKNOWN"
    /\ (length recs <= length lines)%nat
    /\ forall r, In r recs ->
         exists n, (n < length lines)%nat
                   /\ parse_course_from_line (nth n lines "")
                        (section_after (firstn (S n) lines) "UNKNOWN")
                      = Ok (Some r).
Proof.
  destruct (run_loop_returns lines ("UNKNOWN", [])) as ([sec recs] & H).
  exists sec, recs. split; [exact H|].
  split; [exact (run_loop_section _ _ _ _ H)|].
  destruct (run_loop_records _ _ _ _ H) as (new & Hs & Hlen & Hnew).
  cbn [snd app] in Hs. subst new. now split.
Qed.

Lemma dedup_kept_incl (records : list CourseRecord) (k : CourseRecord) :
  In k (fst (dedup_by_course_code records)) -> In k records.
Proof.
  pose proof (dedup_final_inv records) as H. unfold dedup_by_course_code.
  destruct (fold_left dedup_step records ([], [])) as [chosen logs].
  destruct H as (_ & _ & _ & Hbest & _). cbn [fst snd] in *.
  intros Hk. apply in_map_iff in Hk. destruct Hk as (kv & <- & Hkv).
  destruct (Hbest _ Hkv) as (before & after & -> & _).
  apply in_or_app. right. now left.
Qed.

(** ** Credit totals of parsed records *)

Lemma add_sign (x y : float) :
  has_sign false x -> has_sign false y -> has_sign false (Fl.add x y).
Proof.
  destruct x as [sx|sx| |sx mx ex]; cbn [has_sign]; intros Hx;
    try contradiction; subst sx;
    (destruct y as [sy|sy| |sy my ey]; cbn [has_sign]; intros Hy;
     try contradiction; subst sy); try reflexivity.
  unfold Fl.add, SFadd, cond_Zopp, binary_normalize.
  cbn [Z.add]. apply binary_round_sign.
Qed.

Lemma fold_add_sign (l : list float) (acc : float) :
  has_sign false acc -> Forall (has_sign false) l ->
  has_sign false (fold_left Fl.add l acc).
Proof.
  revert acc. induction l as [|x l IH]; intros acc Ha Hl; cbn [fold_left];
    [exact Ha|].
  inversion Hl; subst. apply IH; [now apply add_sign | assumption].
Qed.

Lemma py_round_sign (s : bool) (x : float) (n : nat) :
  has_sign s x -> has_sign s (py_round x n).
Proof.
  destruct x as [sx|sx| |sx m e]; cbn [has_sign py_round]; intros H;
    try exact H. subst sx.
  destruct (match e with
            | 0%Z => Zpos (m * Z.to_pos (10 ^ Z.of_nat n))
            | Zpos k => Zpos (m * 2 ^ k * Z.to_pos (10 ^ Z.of_nat n))
            | Zneg k =>
                div_half_even (Zpos (m * Z.to_pos (10 ^ Z.of_nat n))) (2 ^ k)
            end); try reflexivity.
  apply ratio_sign.
Qed.

Lemma positive_or_zero (x : float) :
  has_sign false x -> Fl.ltb Fl.zero x = negb (Fl.is_zero x).
Proof.
  destruct x as [s|s| |s m e]; cbn [has_sign]; intros H;
    try contradiction; subst s; reflexivity.
Qed.

(** X12: for every sequence of lines, parsing, deduplication and
    aggregation as [main] chains them return; the sum of the credits that
    count is not NaN and has its sign bit clear, [0 <= total] holds for the
    total reported, and the average is absent exactly when that sum is
    zero. *)
Theorem pipeline_credit_total (lines : list string) :
  exists st info,
    run_loop lines ("UNKNOWN", []) = Ok st
    /\ compute_cgpa (fst (dedup_by_course_code (snd st))) = Ok info
    /\ has_sign false
         (included_total_credits (fst (dedup_by_course_code (snd st))))
    /\ Fl.leb Fl.zero (total_credits_counted info) = true
    /\ (current_cgpa info = None
        <-> Fl.is_zero
              (included_total_credits (fst (dedup_by_course_code (snd st))))
            = true).
Proof.
  destruct (run_loop_returns lines ("UNKNOWN", [])) as (st & H).
  destruct (run_loop_records lines "UNKNOWN" [] st H) as (new & Hs & _ & Hnew).
  cbn [app] in Hs.
  set (deduped := fst (dedup_by_course_code (snd st))).
  assert (Hsign : has_sign false (included_total_credits deduped)).
  { unfold included_total_credits, py_sum.
    apply fold_add_sign; [reflexivity|].
    apply Forall_forall. intros x Hx. apply in_map_iff in Hx.
    destruct Hx as (r & <- & Hr). apply filter_In in Hr.
    destruct Hr as [Hr _]. apply dedup_kept_incl in Hr. rewrite Hs in Hr.
    destruct (Hnew r Hr) as (n & _ & Hp).
    destruct (parsed_numbers _ _ _ Hp) as ((k & ->) & _).
    apply of_decimal_sign. }
  exists st, (mkCgpaInfo
                (if Fl.ltb Fl.zero (included_total_credits deduped)
                 then Some (py_round (Fl.div (included_total_gp deduped)
                                        (included_total_credits deduped)) 3)
                 else None)
                (py_round (included_total_credits deduped) 1)
                (py_round (included_total_gp deduped) 3)).
  fold deduped.
  split; [exact H|]. split; [apply compute_cgpa_returns|].
  split; [exact Hsign|].
  cbn [total_credits_counted current_cgpa].
  split; [apply leb_zero_sign, py_round_sign, Hsign|].
  rewrite (positive_or_zero _ Hsign).
  destruct (Fl.is_zero (included_total_credits deduped)); cbn [negb];
    split; intros K; try reflexivity; discriminate K.
Qed.

(** ** Goal projection: edge behaviour and meaning *)

(** X13: [compute_goal_strategy] returns for all arguments; with remaining
    credits above 0 it gives a required average and one of the eight band
    labels prefixed with "~"; with remaining credits not above 0 (zero,
    negative or NaN) it gives neither, and nothing is divided. *)
Theorem compute_goal_strategy_edges (gp_sum cr total goal : float) :
  exists info,
    compute_goal_strategy gp_sum cr total goal = Ok info
    /\ remaining_credits info = py_round (Fl.sub total cr) 1
    /\ (Fl.ltb Fl.zero (Fl.sub total cr) = true ->
        exists a lbl,
          required_average_gp info = Some a
          /\ required_letter_equivalent info = Some ("~" ++ lbl)%string
          /\ In lbl ["A+"; "A"; "A-"; "B+"; "B"; "B-"; "C+"; "C"])
    /\ (Fl.ltb Fl.zero (Fl.sub total cr) = false ->
        required_average_gp info = None
        /\ required_letter_equivalent info = None).
Proof.
  destruct (Fl.ltb Fl.zero (Fl.sub total cr)) eqn:E.
  - eexists.
    split; [exact (compute_goal_strategy_defined gp_sum cr total goal E)|].
    cbn [remaining_credits required_average_gp required_letter_equivalent].
    split; [reflexivity|]. split; [|discriminate].
    intros _. do 2 eexists. split; [reflexivity|]. split; [reflexivity|].
    pose proof (min_from_In
                  (band_distance
                     (Fl.div (Fl.sub (Fl.mul total goal) gp_sum)
                        (Fl.sub total cr)))
                  (tl bands) ("A+", fl "4.3")) as Hin.
    apply (in_map fst) in Hin. exact Hin.
  - eexists.
    split; [exact (compute_goal_strategy_undefined gp_sum cr total goal E)|].
    cbn [remaining_credits required_average_gp required_letter_equivalent].
    split; [reflexivity|]. split; [discriminate | now split].
Qed.

Lemma compute_goal_strategy_edges_witness :
  exists info,
    compute_goal_strategy (fl "300.0") (fl "109.0") (fl "109.0") (fl "3.5")
    = Ok info
    /\ required_average_gp info = None
    /\ required_letter_equivalent info = None.
Proof.
  destruct (compute_goal_strategy_edges
              (fl "300.0") (fl "109.0") (fl "109.0") (fl "3.5"))
    as (info & Hi & _ & _ & Hz).
  exists info. split; [exact Hi|]. apply Hz. vm_compute. reflexivity.
Defined.

(** ** Exclusion log *)

Lemma classify_non_final (x : string) :
  Py.mem x NON_FINAL_RESULTS = true -> fst (classify_result x) = "excluded".
Proof.
  intros H. apply mem_In in H. cbn in H.
  destruct H as [<-|[<-|[<-|[]]]]; reflexivity.
Qed.

Lemma classify_no_grade (x : string) :
  Py.mem x NO_GRADE_RESULTS = true -> fst (classify_result x) = "excluded".
Proof.
  intros H. apply mem_In in H. cbn in H.
  destruct H as [<-|[]]. reflexivity.
Qed.

Lemma classify_other (x : string) :
  Py.mem x NON_FINAL_RESULTS = false -> Py.mem x NO_GRADE_RESULTS = false ->
  fst (classify_result x) = "included" \/ fst (classify_result x) = "unknown".
Proof.
  intros H1 H2. unfold classify_result.
  destruct (String.eqb x ""); [now right|].
  destruct (Py.lookup x GRADE_TO_POINT); [now left|].
  rewrite H1, H2. now right.
Qed.

(** X15: for a record returned by the parser, the reason the orchestrator
    logs agrees with the status: the reason is "result_non_final" or
    "result_no_grade" exactly when the status is "excluded", and for a
    record that is not included the reason is "missing_or_unknown_result"
    exactly when the status is "unknown". *)
Theorem exclusion_reason_matches_status (line sec : string) (r : CourseRecord) :
  parse_course_from_line line sec = Ok (Some r) ->
  (status r = "excluded"
   <-> exclusion_reason r = "result_non_final"
       \/ exclusion_reason r = "result_no_grade")
  /\ (status r <> "included" ->
      (status r = "unknown"
       <-> exclusion_reason r = "missing_or_unknown_result")).
Proof.
  intros H. apply parse_classified in H.
  apply (f_equal fst) in H. cbn [fst] in H. unfold exclusion_reason.
  destruct (Py.mem (result r) NON_FINAL_RESULTS) eqn:E1.
  - rewrite (classify_non_final _ E1) in H. rewrite <- H.
    split; [split; [intros _; now left | reflexivity]|].
    intros _. split; discriminate.
  - destruct (Py.mem (result r) NO_GRADE_RESULTS) eqn:E2.
    + rewrite (classify_no_grade _ E2) in H. rewrite <- H.
      split; [split; [intros _; now right | reflexivity]|].
      intros _. split; discriminate.
    + destruct (classify_other _ E1 E2) as [K|K]; rewrite K in H;
        rewrite <- H.
      * split; [split; [discriminate | intros [?|?]; discriminate]|].
        intros C. now contradiction C.
      * split; [split; [discriminate | intros [?|?]; discriminate]|].
        intros _. now split.
Qed.

Lemma exclusion_reason_matches_status_witness :
  exists r,
    parse_course_from_line "AMA1100 Calculus 3.0 R" "GUR" = Ok (Some r)
    /\ (exclusion_reason r = "result_non_final"
        \/ exclusion_reason r = "result_no_grade").
Proof.
  eexists. split; [reflexivity|].
  destruct (exclusion_reason_matches_status "AMA1100 Calculus 3.0 R" "GUR"
              _ eq_refl) as [H _].
  apply H. reflexivity.
Defined.

(** ** Order of the courses in the report *)

Lemma ascii_compare_refl (a : ascii) : Ascii.compare a a = Eq.
Proof. unfold Ascii.compare. apply N.compare_refl. Qed.

Lemma ascii_lt_trans (a b c : ascii) :
  Ascii.compare a b = Lt -> Ascii.compare b c = Lt -> Ascii.compare a c = Lt.
Proof.
  unfold Ascii.compare. rewrite !N.compare_lt_iff. apply N.lt_trans.
Qed.

Lemma string_compare_refl (s : string) : String.compare s s = Eq.
Proof.
  induction s as [|c s IH]; cbn; [reflexivity|].
  now rewrite ascii_compare_refl.
Qed.

Lemma string_lt_trans (a b c : string) :
  String.compare a b = Lt -> String.compare b c = Lt ->
  String.compare a c = Lt.
Proof.
  revert b c. induction a as [|x a IH]; intros [|y b] [|z c]; cbn;
    try discriminate; try reflexivity.
  destruct (Ascii.compare x y) eqn:Exy; try discriminate;
    destruct (Ascii.compare y z) eqn:Eyz; try discriminate; intros H1 H2.
  - apply Ascii.compare_eq_iff in Exy, Eyz. subst.
    rewrite ascii_compare_refl. now apply (IH b).
  - apply Ascii.compare_eq_iff in Exy. subst. now rewrite Eyz.
  - apply Ascii.compare_eq_iff in Eyz. subst. now rewrite Exy.
  - now rewrite (ascii_lt_trans _ _ _ Exy Eyz).
Qed.

Lemma string_trichotomy (a b : string) :
  String.compare a b = Lt \/ a = b \/ String.compare b a = Lt.
Proof.
  destruct (String.compare a b) eqn:E.
  - right. left. now apply String.compare_eq_iff.
  - now left.
  - right. right. rewrite String.compare_antisym, E. reflexivity.
Qed.

Lemma sort_key_lt_spec (a b : CourseRecord) :
  sort_key_lt a b = true
  <-> String.compare (section a) (section b) = Lt
      \/ (section a = section b
          /\ String.compare (course_code a) (course_code b) = Lt).
Proof.
  unfold sort_key_lt, String.ltb.
  destruct (String.compare (section a) (section b)) eqn:E.
  - apply String.compare_eq_iff in E.
    destruct (String.compare (course_code a) (course_code b)); split;
      try discriminate; try tauto;
      intros [K|[_ K]]; discriminate K.
  - tauto.
  - split; [discriminate|]. intros [K|[K _]]; [discriminate K|].
    rewrite K, string_compare_refl in E. discriminate E.
Qed.

Lemma sort_key_lt_irrefl (a : CourseRecord) : sort_key_lt a a = false.
Proof.
  unfold sort_key_lt, String.ltb. now rewrite !string_compare_refl.
Qed.

Lemma sort_key_lt_trans (a b c : CourseRecord) :
  sort_key_lt a b = true -> sort_key_lt b c = true -> sort_key_lt a c = true.
Proof.
  rewrite !sort_key_lt_spec.
  intros [H1|[E1 H1]] [H2|[E2 H2]].
  - left. eapply string_lt_trans; eassumption.
  - left. now rewrite <- E2.
  - left. now rewrite E1.
  - right. split; [congruence|]. eapply string_lt_trans; eassumption.
Qed.

Lemma sort_key_total (a b : CourseRecord) :
  sort_key_lt a b = true \/ sort_key_lt b a = true
  \/ (section a = section b /\ course_code a = course_code b).
Proof.
  rewrite !sort_key_lt_spec.
  destruct (string_trichotomy (section a) (section b)) as [H|[H|H]];
    [tauto| |tauto].
  destruct (string_trichotomy (course_code a) (course_code b)) as [K|[K|K]];
    [tauto|tauto|].
  right. left. right. split; [congruence | exact K].
Qed.

Lemma sort_key_lt_same_key (a b c : CourseRecord) :
  section a = section b -> course_code a = course_code b ->
  sort_key_lt c a = sort_key_lt c b.
Proof. intros E1 E2. unfold sort_key_lt. now rewrite E1, E2. Qed.

Lemma may_precede_trans (a b c : CourseRecord) :
  may_precede a b -> may_precede b c -> may_precede a c.
Proof.
  unfold may_precede. intros Hab Hbc.
  destruct (sort_key_lt c a) eqn:Hca; [exfalso|reflexivity].
  destruct (sort_key_total a b) as [H|[H|[E1 E2]]].
  - rewrite (sort_key_lt_trans c a b Hca H) in Hbc. discriminate.
  - congruence.
  - rewrite (sort_key_lt_same_key a b c E1 E2) in Hca. congruence.
Qed.

Lemma sort_key_lt_asym (a b : CourseRecord) :
  sort_key_lt a b = true -> may_precede a b.
Proof.
  unfold may_precede. intros H.
  destruct (sort_key_lt b a) eqn:K; [|reflexivity].
  pose proof (sort_key_lt_trans a b a H K) as C.
  rewrite sort_key_lt_irrefl in C. discriminate C.
Qed.

Lemma insert_sorted_perm (x : CourseRecord) (l : list CourseRecord) :
  Permutation (x :: l) (insert_sorted x l).
Proof.
  induction l as [|y l IH]; cbn [insert_sorted]; [apply Permutation_refl|].
  destruct (sort_key_lt y x); [|apply Permutation_refl].
  transitivity (y :: x :: l); [apply perm_swap | now apply perm_skip].
Qed.

Lemma insert_sorted_sorted (x : CourseRecord) (l : list CourseRecord) :
  StronglySorted may_precede l -> StronglySorted may_precede (insert_sorted x l).
Proof.
  induction 1 as [|y l Hs IH Hy]; cbn [insert_sorted].
  - constructor; constructor.
  - destruct (sort_key_lt y x) eqn:E.
    + constructor; [exact IH|].
      rewrite Forall_forall in *. intros z Hz.
      apply (Permutation_in _ (Permutation_sym (insert_sorted_perm x l))) in Hz.
      destruct Hz as [<-|Hz]; [now apply sort_key_lt_asym | now apply Hy].
    + constructor; [now constructor|].
      constructor; [exact E|].
      rewrite Forall_forall in *. intros z Hz.
      apply (may_precede_trans x y z); [exact E | now apply Hy].
Qed.

(** X16: the courses of the report are the kept records rearranged, none
    lost or repeated, and ordered by section and then by course code: no
    course comes after one whose (section, course code) pair is strictly
    greater. *)
Theorem sorted_courses_sorted (l : list CourseRecord) :
  Permutation l (sorted_courses l)
  /\ StronglySorted may_precede (sorted_courses l).
Proof.
  unfold sorted_courses. induction l as [|x l [IHp IHs]]; cbn [fold_right].
  - split; constructor.
  - split.
    + transitivity (x :: fold_right insert_sorted [] l);
        [now apply perm_skip | apply insert_sorted_perm].
    + now apply insert_sorted_sorted.
Qed.

(** ** Orchestrator: failures and output *)

Lemma before_output_pipeline (path target : string) :
  Forall before_output (pipeline_events path target).
Proof. repeat constructor. Qed.

(** X17: the events of a run of [main] come in one order.  Either the run
    raises before the goal projection, and all it has added to the trace are
    prompts, the opening of the document and core stages; or the goal
    projection has been called, and what follows it is an initial part of:
    the report file created, the report written to it, and the three printed
    lines.  The run returns exactly when all five have taken place, so
    nothing is printed unless the report has been written. *)
Theorem main_output_only_on_success (w : world) :
  exists evs,
    trace (snd (main w)) = trace w ++ evs
    /\ ((Forall before_output evs /\ exists e, fst (main w) = Raise e)
        \/ exists pre s c g report line2 line3 n,
             Forall before_output pre
             /\ evs = pre ++ Projected s c (fl "109.0") g
                         :: firstn n
                              [Created "transcript_parsed.json";
                               Wrote "transcript_parsed.json" report;
                               Printed [PStr "Saved: transcript_parsed.json"];
                               Printed line2; Printed line3]
             /\ (fst (main w) = Ok tt <-> (5 <= n)%nat)).
Proof.
  pattern (main w).
  match goal with |- ?P (main w) => set (Q := P) end.
  unfold main. unfold bind at 1. unfold input at 1.
  destruct (stdin w) as [|[path|e0] rest] eqn:Hin.
  { subst Q. cbv beta. exists []. cbn [snd fst]. rewrite app_nil_r.
    split; [reflexivity|].
    left. split; [apply Forall_nil | eexists; reflexivity]. }
  2:{ subst Q. cbv beta. exists []. cbn [snd fst trace].
      rewrite app_nil_r. split; [reflexivity|]. left.
      split; [apply Forall_nil | eexists; reflexivity]. }
  cbn [stdin documents trace io_error].
  unfold bind at 1. unfold extract_text_pages, bind at 1, emit at 1.
  cbn [stdin documents trace io_error].
  destruct (documents w (Py.strip path)) as [pages|e'] eqn:Hdoc.
  2:{ subst Q. cbv beta. eexists. cbn [snd fst trace].
      rewrite <- !app_assoc.
      split; [reflexivity|]. left.
      split; [repeat constructor | eexists; reflexivity]. }
  unfold bind at 1, emit at 1. cbn [stdin documents trace io_error].
  unfold bind at 1, emit at 1. cbn [stdin documents trace io_error].
  unfold bind at 1, lift at 1.
  destruct (run_loop_returns (normalize_lines pages) ("UNKNOWN", []))
    as (st & ->).
  unfold bind at 1, emit at 1. cbn [stdin documents trace io_error].
  destruct (dedup_by_course_code (snd st)) as [deduped dedup_logs].
  unfold bind at 1, emit at 1. cbn [stdin documents trace io_error].
  unfold bind at 1, emit at 1. cbn [stdin documents trace io_error].
  unfold bind at 1, lift at 1.
  rewrite compute_cgpa_returns.
  unfold bind at 1, input at 1. cbn [stdin documents trace io_error].
  destruct rest as [|[target|e0] rest'].
  { subst Q. cbv beta. eexists. cbn [snd fst trace]. rewrite <- !app_assoc.
    split; [reflexivity|]. left.
    split; [repeat constructor | eexists; reflexivity]. }
  2:{ subst Q. cbv beta. eexists. cbn [snd fst trace].
      rewrite <- !app_assoc.
      split; [reflexivity|]. left.
      split; [repeat constructor | eexists; reflexivity]. }
  unfold bind at 1, lift at 1.
  destruct (py_float (Py.strip target)) as [g|e'] eqn:Hg.
  2:{ subst Q. cbv beta. eexists. cbn [snd fst trace].
      rewrite <- !app_assoc.
      split; [reflexivity|]. left.
      split; [repeat constructor | eexists; reflexivity]. }
  unfold bind at 1, emit at 1. cbn [stdin documents trace io_error].
  unfold bind at 1, lift at 1.
  unfold goal_from_summary.
  cbn [grade_points_sum total_credits_counted].
  destruct (compute_goal_strategy_returns
              (py_round (included_total_gp deduped) 3)
              (py_round (included_total_credits deduped) 1)
              (fl "109.0") g)
    as (gi & ->).
  subst Q. cbv beta.
  match goal with
  | |- context [(perform ?a ;;; perform (Wrote _ ?r) ;;; perform ?c
                 ;;; perform (Printed ?l2) ;;; perform (Printed ?l3)) ?w0] =>
      destruct (outputs_run a (Wrote REPORT_FILE r) c (Printed l2)
                  (Printed l3) w0) as (n & Ht & Hr & _);
      exists (pipeline_events path target
                ++ Projected (py_round (included_total_gp deduped) 3)
                     (py_round (included_total_credits deduped) 1)
                     (fl "109.0") g
                   :: firstn n [a; Wrote REPORT_FILE r; c; Printed l2;
                                Printed l3]);
      split;
      [rewrite Ht; cbn [trace]; rewrite <- !app_assoc; reflexivity
      | right;
        exists (pipeline_events path target),
          (py_round (included_total_gp deduped) 3),
          (py_round (included_total_credits deduped) 1), g, r, l2, l3, n;
        split; [apply before_output_pipeline|];
        split; [reflexivity | exact Hr]]
  end.
Qed.

Lemma py_float_raises (s : string) (e : exn) :
  py_float s = Raise e -> e = ValueError.
Proof.
  unfold py_float.
  destruct (negb (underscores_ok (ascii_of_nat 0) (Py.strip s)));
    [now intros [= <-]|].
  destruct (split_sign (remove_underscores (Py.strip s))) as [neg s1].
  destruct (String.eqb (lower_string s1) "inf"
            || String.eqb (lower_string s1) "infinity"); [discriminate|].
  destruct (String.eqb (lower_string s1) "nan"); [discriminate|].
  destruct (span_digits s1) as [ip s2].
  destruct (match s2 with
            | String "." r => span_digits r
            | _ => (EmptyString, s2)
            end) as [fp s3].
  destruct (Py.is_empty ip && Py.is_empty fp); [now intros [= <-]|].
  destruct (exponent s3); [discriminate | now intros [= <-]].
Qed.

(** X21: the stages of [main] raise nothing of their own accord but the
    [ValueError] of [float] on the target.  A run of [main] that raises [e]
    does so because the console has no answer to a prompt ([EOFError]), or
    reading an answer raised [e], or opening the document raised [e], or
    [float] rejected the target ([ValueError]), or creating the report file,
    writing the report or printing a line failed with [e]. *)
Theorem main_failure_causes (w : world) (e : exn) :
  fst (main w) = Raise e ->
  (e = EOFError /\ (length (stdin w) < 2)%nat)
  \/ (exists n, (n < 2)%nat /\ nth_error (stdin w) n = Some (Raise e))
  \/ (exists path, nth_error (stdin w) 0 = Some (Ok path)
                   /\ documents w (Py.strip path) = Raise e)
  \/ (exists target, nth_error (stdin w) 1 = Some (Ok target)
                     /\ py_float (Py.strip target) = Raise e
                     /\ e = ValueError)
  \/ (exists ev, io_error w ev = Some e
                 /\ match ev with
                    | Created _ | Wrote _ _ | Printed _ => True
                    | _ => False
                    end).
Proof.
  pattern (main w).
  match goal with |- ?P (main w) => set (Q := P) end.
  unfold main. unfold bind at 1. unfold input at 1.
  destruct (stdin w) as [|[path|e0] rest] eqn:Hin.
  { subst Q. cbv beta. cbn [fst]. intros [= <-]. left.
    split; [reflexivity | cbn; lia]. }
  2:{ subst Q. cbv beta. cbn [fst]. intros [= <-]. right; left.
      exists 0%nat. split; [lia | reflexivity]. }
  cbn [stdin documents trace io_error].
  unfold bind at 1. unfold extract_text_pages, bind at 1, emit at 1.
  cbn [stdin documents trace io_error].
  destruct (documents w (Py.strip path)) as [pages|e'] eqn:Hdoc.
  2:{ subst Q. cbv beta. cbn [fst]. intros [= <-]. right; right; left.
      exists path. split; [reflexivity | exact Hdoc]. }
  unfold bind at 1, emit at 1. cbn [stdin documents trace io_error].
  unfold bind at 1, emit at 1. cbn [stdin documents trace io_error].
  unfold bind at 1, lift at 1.
  destruct (run_loop_returns (normalize_lines pages) ("UNKNOWN", []))
    as (st & ->).
  unfold bind at 1, emit at 1. cbn [stdin documents trace io_error].
  destruct (dedup_by_course_code (snd st)) as [deduped dedup_logs].
  unfold bind at 1, emit at 1. cbn [stdin documents trace io_error].
  unfold bind at 1, emit at 1. cbn [stdin documents trace io_error].
  unfold bind at 1, lift at 1.
  rewrite compute_cgpa_returns.
  unfold bind at 1, input at 1. cbn [stdin documents trace io_error].
  destruct rest as [|[target|e0] rest'].
  { subst Q. cbv beta. cbn [fst]. intros [= <-]. left.
    split; [reflexivity | cbn; lia]. }
  2:{ subst Q. cbv beta. cbn [fst]. intros [= <-]. right; left.
      exists 1%nat. split; [lia | reflexivity]. }
  unfold bind at 1, lift at 1.
  destruct (py_float (Py.strip target)) as [g|e'] eqn:Hg.
  2:{ subst Q. cbv beta. cbn [fst]. intros [= <-].
      right; right; right; left.
      exists target. split; [reflexivity|]. split; [exact Hg|].
      exact (py_float_raises _ _ Hg). }
  unfold bind at 1, emit at 1. cbn [stdin documents trace io_error].
  unfold bind at 1, lift at 1.
  unfold goal_from_summary.
  cbn [grade_points_sum total_credits_counted].
  destruct (compute_goal_strategy_returns
              (py_round (included_total_gp deduped) 3)
              (py_round (included_total_credits deduped) 1)
              (fl "109.0") g)
    as (gi & ->).
  subst Q. cbv beta.
  match goal with
  | |- context [(perform ?a ;;; perform ?b ;;; perform ?c
                 ;;; perform ?d ;;; perform ?e5) ?w0] =>
      destruct (outputs_run a b c d e5 w0) as (n & _ & _ & Hx)
  end.
  intros K. destruct (Hx e K) as (ev & Hev & Hio).
  cbn [io_error] in Hio.
  right; right; right; right. exists ev. split; [exact Hio|].
  cbn [In] in Hev.
  destruct Hev as [<-|[<-|[<-|[<-|[<-|[]]]]]]; exact I.
Qed.

Lemma main_failure_causes_witness :
  fst (main (session "abc")) = Raise ValueError
  /\ exists target,
       nth_error (stdin (session "abc")) 1 = Some (Ok target)
       /\ py_float (Py.strip target) = Raise ValueError.
Proof.
  split; [reflexivity|].
  destruct (main_failure_causes (session "abc") ValueError eq_refl)
    as [[K _]|[(n & _ & K)|[(path & _ & K)|[(target & Ht & Hf & _)|(ev & K & _)]]]].
  - discriminate K.
  - exists "abc". split; reflexivity.
  - exists "abc". split; reflexivity.
  - exists target. split; assumption.
  - discriminate K.
Defined.

(** ** Section tracker: sub-headers under Major/DSR *)

Lemma first_group_nonempty (rs : list string) (g : string) :
  first_group rs = Some g -> exists r, In r rs.
Proof. destruct rs as [|r rs]; [discriminate | exists r; now left]. Qed.

Lemma header_starts_with_digit (line g : string) :
  SECTION_HEADER_RE line = Some g ->
  exists d s, line = String d s /\ Py.is_digit d = true.
Proof.
  unfold SECTION_HEADER_RE, Re.seq, Re.plus. intros H.
  apply first_group_nonempty in H. destruct H as (r & H).
  apply in_flat_map in H. destruct H as (r1 & H1 & _).
  apply rep_spec in H1. destruct H1 as (pre & E & Hd & Hlen).
  destruct pre as [|d pre]; [cbn in Hlen; lia|].
  cbn [all_chars] in Hd. apply andb_true_iff in Hd.
  exists d, (pre ++ r1)%string. split; [exact E | tauto].
Qed.

Lemma header_not_major (line g : string) :
  SECTION_HEADER_RE line = Some g ->
  String.eqb (Py.strip line) "Major/DSR" = false.
Proof.
  intros H. destruct (header_starts_with_digit _ _ H) as (d & s & -> & Hd).
  unfold Py.strip. cbn [Py.lstrip Py.rstrip].
  rewrite (digit_not_space _ Hd). cbn [Py.rstrip].
  rewrite (digit_not_space _ Hd), andb_false_r.
  cbn [String.eqb]. destruct (Ascii.eqb_spec d "M") as [->|_];
    [discriminate Hd | reflexivity].
Qed.

(** X18: a sub-header line (count, count, one of the four phrases) read
    under "Major/DSR" or under an earlier "Major/DSR - ..." section gives
    "Major/DSR - " followed by its phrase, so sub-headers replace one another
    and do not nest; read under a section that does not contain "Major/DSR"
    it gives the phrase alone. *)
Theorem detect_section_subheader (line g : string) :
  SECTION_HEADER_RE line = Some g ->
  detect_section line "Major/DSR" = ("Major/DSR - " ++ g)%string
  /\ (forall p, detect_section line ("Major/DSR - " ++ p)
                = ("Major/DSR - " ++ g)%string)
  /\ (forall c, Py.contains "Major/DSR" c = false ->
                detect_section line c = g).
Proof.
  intros H. pose proof (header_not_major _ _ H) as Hm.
  unfold detect_section. rewrite Hm, H. split; [reflexivity|].
  split.
  - intros p. reflexivity.
  - intros c Hc. now rewrite Hc.
Qed.

Lemma detect_section_subheader_witness :
  detect_section "12/30 WIE" "Major/DSR - Compulsory" = "Major/DSR - WIE".
Proof.
  destruct (detect_section_subheader "12/30 WIE" "WIE" eq_refl)
    as (_ & H & _).
  exact (H "Compulsory").
Defined.

(** ** Sample generator *)

Lemma Qltb_lt (x y : Q) : Qltb x y = true <-> (x < y)%Q.
Proof.
  unfold Qltb. rewrite negb_true_iff. split.
  - intros H. apply Qnot_le_lt. intros K.
    apply Qle_bool_iff in K. congruence.
  - intros H. destruct (Qle_bool y x) eqn:E; [|reflexivity].
    apply Qle_bool_iff in E. exfalso. apply (Qlt_not_le _ _ H E).
Qed.

Lemma Qltb_ge (x y : Q) : Qltb x y = false <-> (y <= x)%Q.
Proof.
  unfold Qltb. rewrite negb_false_iff. apply Qle_bool_iff.
Qed.

Lemma draw_lines_texts (height : Q) (lines : list string) (y : Q) :
  drawn_texts (draw_lines height y lines) = map Py.rstrip lines.
Proof.
  revert y. induction lines as [|l lines IH]; intros y; cbn [draw_lines map];
    [reflexivity|].
  destruct (Qltb y 40); cbn [drawn_texts]; now rewrite IH.
Qed.

Lemma draw_lines_margins (height : Q) (lines : list string) (y : Q) :
  (80 <= height)%Q -> (y <= height - 40)%Q ->
  forall x y' t, In (DrawString x y' t) (draw_lines height y lines) ->
    x = 40%Q /\ (40 <= y' /\ y' <= height - 40)%Q.
Proof.
  intros Hh. revert y. induction lines as [|l lines IH]; intros y Hy x y' t;
    cbn [draw_lines]; [intros []|].
  destruct (Qltb y 40) eqn:E.
  - intros [K|[K|K]]; [discriminate K| |].
    + injection K as <- <- _. split; [reflexivity | split; lra].
    + eapply (IH (height - 40 - 14)%Q); [lra | exact K].
  - apply Qltb_ge in E. intros [K|K].
    + injection K as <- <- _. split; [reflexivity | split; lra].
    + eapply (IH (y - 14)%Q); [lra | exact K].
Qed.

(** X19: the sample generator draws every line of its input exactly once,
    in order, with trailing whitespace removed, and saves the canvas last;
    on a page at least 80 units high every string is drawn at abscissa 40
    and at an ordinate between the bottom margin 40 and the top margin
    [height - 40]. *)
Theorem generate_sample_layout (height : Q) (lines : list string) :
  drawn_texts (generate_sample height lines) = map Py.rstrip lines
  /\ last (generate_sample height lines) ShowPage = Save
  /\ ((80 <= height)%Q ->
      forall x y t, In (DrawString x y t) (generate_sample height lines) ->
        x = 40%Q /\ (40 <= y /\ y <= height - 40)%Q).
Proof.
  unfold generate_sample. split.
  - assert (Happ : forall a b, drawn_texts (a ++ b)
                               = drawn_texts a ++ drawn_texts b).
    { induction a as [|[| |] a IH]; intros b; cbn; rewrite ?IH; reflexivity. }
    rewrite Happ, draw_lines_texts. cbn. apply app_nil_r.
  - split; [apply last_last|].
    intros Hh x y t Hin. apply in_app_or in Hin.
    destruct Hin as [Hin|[K|[]]]; [|discriminate K].
    eapply (draw_lines_margins height lines (height - 40)%Q Hh);
      [lra | exact Hin].
Qed.

Lemma generate_sample_layout_witness :
  (80 <= 100)%Q /\ (40 <= 100 - 40 /\ 100 - 40 <= 100 - 40)%Q.
Proof.
  split; [discriminate|].
  destruct (generate_sample_layout 100 ["a  "; "b"; "c"]) as (_ & _ & H).
  apply (H ltac:(discriminate) 40%Q (100 - 40)%Q "a"%string).
  left. reflexivity.
Defined.
